(** * Seed data fetcher: sampling, rewriting, writing and validating

    A shallow embedding of [scripts/fetch-seed-data.py] and the proofs of
    its specification.  Python values are the ones [json.loads] builds;
    the records of the fetched array live in a store, because the sampler
    rewrites them in place.

    What belongs to the interpreter and its libraries is kept abstract:
    a body or a file is described by the document the JSON parser reads
    from it (so [json.dump] followed by [json.load] gives the value back),
    a mapping is a finite map (the order of its keys only shows in the
    serialised text).  Console output is not kept.  A [print] is visible
    through the expressions it evaluates, which may raise, and, where it
    prints text taken from the input and its failure changes the outcome
    of the run, through whether standard output can encode that text; the
    fixed messages and the numbers are taken to print. *)

From Stdlib Require Import ZArith String Ascii List.
From Stdlib Require Import Floats.SpecFloat.
From stdpp Require Import base option list gmap strings.

Set Warnings "-register-all".
Open Scope Z_scope.
Open Scope string_scope.

(** ** Exceptions and results *)

Inductive exn :=
| KeyError
| TypeError
| AttributeError
| IndexError
| ZeroDivisionError
| ValueError (msg : string)
| MissingField (i : nat) (field : string)      (* ValueError(f"Server {i} missing required field: {field}") *)
| UnicodeDecodeError
| UnicodeEncodeError
| JSONDecodeError
| URLError
| OSError
| HTTPStatus (status : Z) (reason : string).   (* raise Exception(f"HTTP {status}: {reason}") *)

Inductive result (A : Type) :=
| Ok (a : A)
| Err (e : exn).
Arguments Ok {A} a.
Arguments Err {A} e.

Definition is_ok {A} (r : result A) : bool :=
  match r with Ok _ => true | Err _ => false end.

(** ** Values built by [json.loads] *)

Inductive pyval :=
| PNone
| PBool (b : bool)
| PInt (z : Z)
| PFloat (f : spec_float)
| PStr (s : string)
| PList (items : list pyval)
| PDict (d : gmap string pyval).

(** Truth value of an object, as [not v] tests it. *)
Definition py_truthy (v : pyval) : bool :=
  match v with
  | PNone => false
  | PBool b => b
  | PInt z => negb (Z.eqb z 0)
  | PFloat (S754_zero _) => false
  | PFloat _ => true
  | PStr s => negb (String.eqb s "")
  | PList items => match items with [] => false | _ => true end
  | PDict d => negb (bool_decide (d = ∅))
  end.

(** ** Strings

    A [string] stands for a Python [str]; one [ascii] stands for one
    character.  Only ['/'] and the literal field names are ever compared. *)

(** [needle in s] for two strings: [needle] occurs somewhere in [s]. *)
Fixpoint str_contains (needle s : string) : bool :=
  String.prefix needle s ||
  match s with
  | EmptyString => false
  | String _ rest => str_contains needle rest
  end.

(** The cut at the first occurrence of [sep], if there is one. *)
Fixpoint split_once (sep : ascii) (s : string) : option (string * string) :=
  match s with
  | EmptyString => None
  | String c rest =>
      if Ascii.eqb c sep then Some (EmptyString, rest)
      else match split_once sep rest with
           | Some (before, after) => Some (String c before, after)
           | None => None
           end
  end.

(** [s.split(sep, 1)]: at most one cut, so one or two pieces. *)
Definition py_split1 (sep : ascii) (s : string) : list string :=
  match split_once sep s with
  | Some (before, after) => [before; after]
  | None => [s]
  end.

(** [pieces[-1]] on the pieces of a split, which are never empty. *)
Definition py_last (pieces : list string) : string :=
  default EmptyString (last pieces).

(** [s[i]]: the one-character string at position [i]. *)
Definition str_at (s : string) (i : nat) : option string :=
  match String.get i s with
  | Some c => Some (String c EmptyString)
  | None => None
  end.

(** ** Membership and subscripts on values *)

(** [key in v] for a string [key]. *)
Definition py_contains_str (key : string) (v : pyval) : result bool :=
  match v with
  | PStr s => Ok (str_contains key s)
  | PList items =>
      Ok (existsb (fun x => match x with PStr s => String.eqb key s | _ => false end) items)
  | PDict d => Ok (bool_decide (is_Some (d !! key)))
  | _ => Err TypeError                     (* argument is not iterable *)
  end.

(** [v[key]] for a string [key]: only a dict can be subscripted so. *)
Definition py_getitem_str (v : pyval) (key : string) : result pyval :=
  match v with
  | PDict d => match d !! key with Some x => Ok x | None => Err KeyError end
  | _ => Err TypeError
  end.

(** ** The store of records

    [json.loads] builds one object per element of the top-level array.
    These are the objects the sampler subscripts and assigns to, so they
    are kept in a store and lists hold their locations. *)

Abbreviation loc := nat.
Abbreviation heap := (list pyval).

Definition deref (h : heap) (l : loc) : pyval := default PNone (h !! l).

(** What a program variable holds: a list of stored objects, or a value
    that is never mutated. *)
Inductive pyobj :=
| ONone
| OBool (b : bool)
| OInt (z : Z)
| OFloat (f : spec_float)
| OStr (s : string)
| OList (refs : list loc)
| ODict (d : gmap string pyval).

(** The objects [json.loads] builds for a parsed document. *)
Definition load (v : pyval) : heap * pyobj :=
  match v with
  | PNone => ([], ONone)
  | PBool b => ([], OBool b)
  | PInt z => ([], OInt z)
  | PFloat f => ([], OFloat f)
  | PStr s => ([], OStr s)
  | PList items => (items, OList (seq 0 (length items)))
  | PDict d => ([], ODict d)
  end.

(** The document an object denotes in a given store; what [json.dump]
    serialises. *)
Definition snapshot (h : heap) (o : pyobj) : pyval :=
  match o with
  | ONone => PNone
  | OBool b => PBool b
  | OInt z => PInt z
  | OFloat f => PFloat f
  | OStr s => PStr s
  | OList refs => PList (map (deref h) refs)
  | ODict d => PDict d
  end.

(** ** Computations on the store that may raise *)

Definition M (A : Type) : Type := heap -> result A * heap.

Definition ret {A} (a : A) : M A := fun h => (Ok a, h).
Definition bind {A B} (m : M A) (k : A -> M B) : M B :=
  fun h => match m h with
           | (Ok a, h') => k a h'
           | (Err e, h') => (Err e, h')
           end.
Definition lift {A} (r : result A) : M A := fun h => (r, h).

Declare Scope py_scope.
Delimit Scope py_scope with py.
Notation "x <~ m ;; k" := (bind m (fun x => k))
  (at level 100, m at next level, right associativity) : py_scope.
Notation "m ;;; k" := (bind m (fun _ => k))
  (at level 100, right associativity) : py_scope.
Open Scope py_scope.

(** A list comprehension [[f x for x in xs]]. *)
Fixpoint comprehension {A B} (f : A -> M B) (xs : list A) : M (list B) :=
  match xs with
  | [] => ret []
  | x :: rest => y <~ f x ;; ys <~ comprehension f rest ;; ret (y :: ys)
  end.

(** A loop [for x in xs: body x]. *)
Fixpoint for_each {A} (xs : list A) (body : A -> M unit) : M unit :=
  match xs with
  | [] => ret tt
  | x :: rest => body x ;;; for_each rest body
  end.

(** [server[key]] *)
Definition getitem (server : loc) (key : string) : M pyval :=
  fun h => (py_getitem_str (deref h server) key, h).

(** [server[key] = v] *)
Definition setitem (server : loc) (key : string) (v : pyval) : M unit :=
  fun h => match deref h server with
           | PDict d => (Ok tt, <[server := PDict (<[key := v]> d)]> h)
           | _ => (Err TypeError, h)
           end.

(** [server.get(key, dflt)] *)
Definition dict_get (server : loc) (key : string) (dflt : pyval) : M pyval :=
  fun h => match deref h server with
           | PDict d => (Ok (default dflt (d !! key)), h)
           | _ => (Err AttributeError, h)
           end.

(** [key in server] *)
Definition contains (key : string) (server : loc) : M bool :=
  fun h => (py_contains_str key (deref h server), h).

(** [len(o)] *)
Definition py_len (o : pyobj) : result Z :=
  match o with
  | OList refs => Ok (Z.of_nat (length refs))
  | OStr s => Ok (Z.of_nat (String.length s))
  | ODict d => Ok (Z.of_nat (size d))
  | _ => Err TypeError
  end.

(** [a // b] on integers: floor division, which is [Z.div]. *)
Definition py_floordiv (a b : Z) : result Z :=
  if Z.eqb b 0 then Err ZeroDivisionError else Ok (a / b).

(** [range(n)] *)
Definition py_range (n : Z) : list Z := map Z.of_nat (seq 0 (Z.to_nat n)).

(** A sequence index: negative indices count from the end. *)
Definition seq_index (len i : Z) : option nat :=
  let j := if Z.ltb i 0 then i + len else i in
  if Z.leb 0 j && Z.ltb j len then Some (Z.to_nat j) else None.

(** [o[i]] for an integer [i].  A list yields the stored object itself;
    a string yields a fresh one-character string; a dict built from JSON
    has only string keys. *)
Definition py_getitem (o : pyobj) (i : Z) : M loc :=
  fun h =>
    match o with
    | OList refs =>
        match seq_index (Z.of_nat (length refs)) i with
        | Some j => match refs !! j with
                    | Some l => (Ok l, h)
                    | None => (Err IndexError, h)
                    end
        | None => (Err IndexError, h)
        end
    | OStr s =>
        match seq_index (Z.of_nat (String.length s)) i with
        | Some j => match str_at s j with
                    | Some c => (Ok (length h), (h ++ [PStr c])%list)
                    | None => (Err IndexError, h)
                    end
        | None => (Err IndexError, h)
        end
    | ODict _ => (Err KeyError, h)
    | _ => (Err TypeError, h)
    end.

(** ** The sampler *)

Definition ANON_PREFIX : string := "io.modelcontextprotocol.anonymous/".
Definition DEMO_PREFIX : string := "[DEMO] ".

(** [original_name.split('/', 1)[-1] if '/' in original_name else original_name].
    The membership test runs first; a list or dict that passes it has no
    [split] attribute. *)
Definition namespace_part_of (original_name : pyval) : result pyval :=
  match original_name with
  | PStr s =>
      Ok (PStr (if str_contains "/" s then py_last (py_split1 "/" s) else s))
  | PList _ | PDict _ =>
      match py_contains_str "/" original_name with
      | Ok true => Err AttributeError
      | Ok false => Ok original_name
      | Err e => Err e
      end
  | _ => Err TypeError
  end.

Section Sampler.

(** [str(v)] for a value that is not a string: the text Python prints for
    [None], numbers, lists and dicts.  It belongs to the interpreter, not
    to the script. *)
Variable py_repr : pyval -> string.

(** What an f-string substitutes for [{v}]. *)
Definition py_format (v : pyval) : string :=
  match v with
  | PStr s => s
  | _ => py_repr v
  end.

(** The body of the loop [for server in sample]. *)
Definition rewrite_server (server : loc) : M unit :=
  original_name <~ getitem server "name" ;;
  namespace_part <~ lift (namespace_part_of original_name) ;;
  setitem server "name" (PStr (ANON_PREFIX ++ py_format namespace_part)) ;;;
  description <~ dict_get server "description" (PStr "No description") ;;
  setitem server "description" (PStr (DEMO_PREFIX ++ py_format description)) ;;;
  has_version <~ contains "version" server ;;
  missing <~ (if negb has_version then ret true
              else version <~ getitem server "version" ;;
                   ret (negb (py_truthy version))) ;;
  if (missing : bool) then setitem server "version" (PStr "1.0.0") else ret tt.

Definition create_sample_data (full_data : pyobj) (sample_size : Z) : M pyobj :=
  total_servers <~ lift (py_len full_data) ;;
  if Z.leb total_servers sample_size then ret full_data
  else
    step <~ lift (py_floordiv total_servers sample_size) ;;
    let sample_indices := map (fun i => i * step) (py_range sample_size) in
    sample <~ comprehension (py_getitem full_data) sample_indices ;;
    for_each sample rewrite_server ;;;
    ret (OList sample).

End Sampler.

(** ** The network and the disk *)

(** A body or a file, by what the decoder and the JSON parser make of it. *)
Inductive content :=
| JsonText (v : pyval)        (* text that json.loads reads as [v] *)
| Malformed (raw : string)    (* text that json.loads rejects *)
| Undecodable.                (* bytes that are not UTF-8 *)

Record response := { status : Z; reason : string; body : content }.

Inductive urlopen_result :=
| Raises (e : exn)
| Responds (r : response).

Inductive write_fault :=
| MkdirFails
| OpenFails
| WriteFails (partial : string).

Record world := {
  urlopen : string -> urlopen_result;
  fault_at : string -> option write_fault;
  default_output_file : string;       (* <script dir>/../deploy/sample-seed.json *)
  stdout_encodes : string -> bool     (* what sys.stdout can encode *)
}.

Abbreviation disk := (gmap string content).

Definition SEED_DATA_URL : string :=
  "https://raw.githubusercontent.com/modelcontextprotocol/registry/main/data/seed.json".

(** [json.loads] on a decoded body, [json.load] on a file. *)
Definition json_loads (c : content) : result pyval :=
  match c with
  | JsonText v => Ok v
  | Malformed _ => Err JSONDecodeError
  | Undecodable => Err UnicodeDecodeError
  end.

Definition fetch_seed_data (w : world) (url : string) : result (heap * pyobj) :=
  match urlopen w url with
  | Raises e => Err e
  | Responds response =>
      if negb (Z.eqb (status response) 200)
      then Err (HTTPStatus (status response) (reason response))
      else match json_loads (body response) with
           | Err e => Err e
           | Ok v =>
               let '(h, data) := load v in
               match py_len data with            (* the f-string with len(data) *)
               | Err e => Err e
               | Ok _ => Ok (h, data)
               end
           end
  end.

Definition save_sample_data (w : world) (h : heap) (sample_data : pyobj)
    (output_file : string) (fs : disk) : result unit * disk :=
  match fault_at w output_file with
  | Some MkdirFails => (Err OSError, fs)
  | Some OpenFails => (Err OSError, fs)
  | Some (WriteFails partial) => (Err OSError, <[output_file := Malformed partial]> fs)
  | None =>
      let fs' := <[output_file := JsonText (snapshot h sample_data)]> fs in
      match py_len sample_data with              (* the f-string with len(sample_data) *)
      | Err e => (Err e, fs')
      | Ok _ => (Ok tt, fs')
      end
  end.

(** ** The validator *)

Definition required_fields : list string := ["name"; "description"; "version"].

(** The inner loop over [required_fields] for the server at position [i]. *)
Fixpoint check_fields (i : nat) (server : pyval) (fields : list string) : result unit :=
  match fields with
  | [] => Ok tt
  | field :: rest =>
      match py_contains_str field server with
      | Err e => Err e
      | Ok false => Err (MissingField i field)
      | Ok true => check_fields i server rest
      end
  end.

(** The outer loop [for i, server in enumerate(data)], from position [i]. *)
Fixpoint check_servers (i : nat) (servers : list pyval) : result unit :=
  match servers with
  | [] => Ok tt
  | server :: rest =>
      match check_fields i server required_fields with
      | Err e => Err e
      | Ok _ => check_servers (S i) rest
      end
  end.

Definition read_json (fs : disk) (path : string) : result pyval :=
  match fs !! path with
  | None => Err OSError
  | Some c => json_loads c
  end.

(** The body of the [try]: the count it reports when every check passes. *)
Definition validate_checks (fs : disk) (sample_file : string) : result nat :=
  match read_json fs sample_file with
  | Err e => Err e
  | Ok (PList servers) =>
      if Nat.eqb (length servers) 0 then Err (ValueError "No servers in sample data")
      else match check_servers 0 servers with
           | Err e => Err e
           | Ok _ => Ok (length servers)
           end
  | Ok _ => Err (ValueError "Data should be a list")
  end.

Definition validate_sample_data (fs : disk) (sample_file : string) : bool :=
  is_ok (validate_checks fs sample_file).

(** ** The entry point *)

Section Entry.

(** [str] on values that are not strings, as above, and [int(s)] for a
    command-line argument: [None] where Python raises [ValueError]. *)
Variable py_repr : pyval -> string.
Variable py_int : string -> option Z.

(** [sample_data[:5]].  A mapping cannot be sliced; which exception that
    raises depends on the interpreter version, and [main] treats all
    alike. *)
Definition first_five (h : heap) (sample_data : pyobj) : result (list pyval) :=
  match sample_data with
  | OList refs => Ok (map (deref h) (take 5 refs))
  | OStr s => Ok (map (fun c => PStr (String c EmptyString)) (take 5 (list_ascii_of_string s)))
  | _ => Err TypeError
  end.

(** [print] of a line into which [text] is substituted.  A string that
    standard output cannot encode (a lone surrogate, say, which a JSON
    escape or an undecodable command-line byte leaves in a [str]) makes it
    raise; the fixed part of the line is taken to be encodable. *)
Definition py_print (w : world) (text : string) : result unit :=
  if stdout_encodes w text then Ok tt else Err UnicodeEncodeError.

(** The loop [for i, server in enumerate(sample_data[:5])], which prints
    [server['name']] after its rank. *)
Fixpoint print_names (w : world) (servers : list pyval) : result unit :=
  match servers with
  | [] => Ok tt
  | server :: rest =>
      match py_getitem_str server "name" with
      | Err e => Err e
      | Ok name =>
          match py_print w (py_format py_repr name) with
          | Err e => Err e
          | Ok _ => print_names w rest
          end
      end
  end.

(** The report printed once validation has passed: the output path, the
    two lengths, the size of the file, then the first names. *)
Definition print_summary (w : world) (h : heap) (full_data sample_data : pyobj)
    (output_file : string) (fs : disk) : result unit :=
  match py_print w output_file with
  | Err e => Err e
  | Ok _ =>
      match py_len sample_data, py_len full_data with
      | Ok _, Ok _ =>
          match fs !! output_file with               (* os.path.getsize *)
          | None => Err OSError
          | Some _ =>
              match first_five h sample_data with
              | Err e => Err e
              | Ok servers => print_names w servers
              end
          end
      | Err e, _ | _, Err e => Err e
      end
  end.

Definition parse_output_file (w : world) (argv : list string) : string :=
  match argv !! 1%nat with
  | Some path => path
  | None => default_output_file w
  end.

Definition parse_sample_size (argv : list string) : Z :=
  match argv !! 2%nat with
  | Some arg => match py_int arg with Some k => k | None => 10 end
  | None => 10
  end.

(** The warning about a sample size that [int] rejects is printed in the
    [except ValueError] clause, outside the [try] of [main]: if it raises,
    nothing catches it and the process ends there. *)
Definition warning_raises (w : world) (argv : list string) : bool :=
  match argv !! 2%nat with
  | Some arg =>
      match py_int arg with
      | Some _ => false
      | None => negb (stdout_encodes w arg)
      end
  | None => false
  end.

(** [main]: the exit status of the process and the disk it leaves.  The
    writer also prints the output path, after the file is closed; when
    that raises, the file stays written and the status is 1.  Status and
    disk are the same here, where the validator turns the file down or
    the report fails to print the same path. *)
Definition main (w : world) (argv : list string) (fs : disk) : Z * disk :=
  let output_file := parse_output_file w argv in
  let sample_size := parse_sample_size argv in
  if warning_raises w argv then (1, fs) else
  match fetch_seed_data w SEED_DATA_URL with
  | Err _ => (1, fs)
  | Ok (h, full_data) =>
      match create_sample_data py_repr full_data sample_size h with
      | (Err _, _) => (1, fs)
      | (Ok sample_data, h') =>
          match save_sample_data w h' sample_data output_file fs with
          | (Err _, fs') => (1, fs')
          | (Ok _, fs') =>
              if validate_sample_data fs' output_file then
                match print_summary w h' full_data sample_data output_file fs' with
                | Ok _ => (0, fs')
                | Err _ => (1, fs')
                end
              else (1, fs')
          end
      end
  end.

End Entry.

(** ** Definitions used to state the properties *)

(** The local part of a name, in the words of the specification:
    everything after the first ['/'], or the whole name if there is none. *)
Fixpoint after_first_slash (s : string) : option string :=
  match s with
  | EmptyString => None
  | String c rest => if Ascii.eqb c "/" then Some rest else after_first_slash rest
  end.

Definition local_part (s : string) : string := default s (after_first_slash s).

(** A registry record of the data model: a mapping whose [name] is a string. *)
Definition is_record (h : heap) (l : loc) : bool :=
  match deref h l with
  | PDict d => match d !! "name" with Some (PStr _) => true | _ => false end
  | _ => false
  end.

Definition is_dict (v : pyval) : bool :=
  match v with PDict _ => true | _ => false end.

(** The field [key] of a stored object, if it is a mapping that has it. *)
Definition field (h : heap) (l : loc) (key : string) : option pyval :=
  match deref h l with
  | PDict d => d !! key
  | _ => None
  end.

(** The step of the spread sample, [floor(n/k)], as a position. *)
Definition spread_step (n : nat) (k : Z) : nat := Z.to_nat (Z.of_nat n / k).

(** Two states of one object that differ at most in the three rewritten
    fields. *)
Definition same_other_fields (v v' : pyval) : Prop :=
  match v, v' with
  | PDict d, PDict d' =>
      forall key : string,
        key <> "name" -> key <> "description" -> key <> "version" ->
        d' !! key = d !! key
  | _, _ => v' = v
  end.

(** The record at [l] carries a name under the anonymous namespace. *)
Definition has_anon_name (h : heap) (l : loc) : bool :=
  match field h l "name" with
  | Some (PStr s) => String.prefix ANON_PREFIX s
  | _ => false
  end.

(** The objects at positions [0, step, 2*step, ...], [k] of them. *)
Definition spread (refs : list loc) (k : Z) : list loc :=
  omap (fun i => refs !! (i * spread_step (length refs) k)%nat)
       (seq 0 (Z.to_nat k)).

Section Reading.

Variable py_repr : pyval -> string.

(** The mapping the loop body leaves, given the mapping it found and the
    namespace part it computed. *)
Definition rewrite_record (d : gmap string pyval) (namespace_part : pyval)
    : gmap string pyval :=
  let d1 := <["name" := PStr (ANON_PREFIX ++ py_format py_repr namespace_part)]> d in
  let description := default (PStr "No description") (d !! "description") in
  let d2 := <["description" := PStr (DEMO_PREFIX ++ py_format py_repr description)]> d1 in
  match d !! "version" with
  | Some v => if py_truthy v then d2 else <["version" := PStr "1.0.0"]> d2
  | None => <["version" := PStr "1.0.0"]> d2
  end.


Variable py_int : string -> option Z.

(** The stages of the pipeline, after the command line is read, and the
    first one that fails in a run, if any does. *)
Inductive stage := Starting | Fetching | Sampling | Writing | Validating.

Definition first_failure (w : world) (argv : list string) (fs : disk)
    : option stage :=
  let output_file := parse_output_file w argv in
  let sample_size := parse_sample_size py_int argv in
  if warning_raises py_int w argv then Some Starting else
  match fetch_seed_data w SEED_DATA_URL with
  | Err _ => Some Fetching
  | Ok (h, full_data) =>
      match create_sample_data py_repr full_data sample_size h with
      | (Err _, _) => Some Sampling
      | (Ok sample_data, h') =>
          match save_sample_data w h' sample_data output_file fs with
          | (Err _, _) => Some Writing
          | (Ok _, fs') =>
              if validate_sample_data fs' output_file then None
              else Some Validating
          end
      end
  end.

End Reading.

(** A mapping that has the three required fields. *)
Definition has_required_fields (v : pyval) : bool :=
  match v with
  | PDict d =>
      bool_decide (is_Some (d !! "name")) &&
      bool_decide (is_Some (d !! "description")) &&
      bool_decide (is_Some (d !! "version"))
  | _ => false
  end.

(** ** Sample data for the examples *)

(** Four records as [json.loads] would build them: the first has neither
    description nor version, the third an empty version. *)
Definition demo_records : list pyval :=
  [ PDict {[ "name" := PStr "acme/tool" ]};
    PDict {[ "name" := PStr "a/b/c"; "description" := PStr "hi";
             "version" := PStr "2.1.0"; "homepage" := PStr "https://a.example" ]};
    PDict {[ "name" := PStr "noslash"; "description" := PStr "x";
             "version" := PStr "" ]};
    PDict {[ "name" := PStr "z/y" ]} ].

Definition demo_list : list loc := [0; 1; 2; 3]%nat.

(** A stand-in for [str] on values that are not strings; the examples
    only ever format strings, so it is never consulted. *)
Definition demo_repr : pyval -> string := fun _ => "<object>".

(** A lone surrogate, as the escape [\ud800] leaves one in a [str]; it is
    written here with the three bytes [ED A0 80] that stand for it. *)
Definition LONE_SURROGATE : string :=
  String (ascii_of_nat 237) (String (ascii_of_nat 160)
    (String (ascii_of_nat 128) EmptyString)).

(** A UTF-8 standard output: it encodes every text but those that hold a
    surrogate. *)
Definition utf8_stdout (text : string) : bool :=
  negb (str_contains LONE_SURROGATE text).

(** A network that serves [doc] with status 200, a disk without faults
    and a UTF-8 standard output. *)
Definition serving (doc : content) : world :=
  {| urlopen := fun _ => Responds {| status := 200; reason := "OK"; body := doc |};
     fault_at := fun _ => None;
     default_output_file := "deploy/sample-seed.json";
     stdout_encodes := utf8_stdout |}.

Definition demo_world : world := serving (JsonText (PList demo_records)).

(** A valid JSON document whose top-level value is an object. *)
Definition object_doc : gmap string pyval := {[ "servers" := PList [] ]}.
Definition object_world : world := serving (JsonText (PDict object_doc)).

(** A body that is not JSON. *)
Definition malformed_world : world := serving (Malformed "<html>not json</html>").

(** A valid JSON array whose one element is a string, not a mapping. *)
Definition strings_world : world :=
  serving (JsonText (PList [PStr "name description version"])).

(** One complete record whose name ends in a lone surrogate, as the JSON
    text ["acme/tool-\ud800"] parses. *)
Definition surrogate_records : list pyval :=
  [ PDict {[ "name" := PStr ("acme/tool-" ++ LONE_SURROGATE);
             "description" := PStr "A tool"; "version" := PStr "0.3.0" ]} ].

Definition surrogate_world : world := serving (JsonText (PList surrogate_records)).

(** [int] on the one argument the examples pass. *)
Definition demo_int (s : string) : option Z :=
  if String.eqb s "2" then Some 2 else None.

Definition demo_argv : list string := ["fetch-seed-data.py"; "out.json"; "2"].

(** ** Further definitions for the properties of the whole script *)

(** The record at [l] carries a description marked as a demo. *)
Definition has_demo_description (h : heap) (l : loc) : bool :=
  match field h l "description" with
  | Some (PStr s) => String.prefix DEMO_PREFIX s
  | _ => false
  end.

(** The record at [l] has a version that [not] does not reject. *)
Definition has_truthy_version (h : heap) (l : loc) : bool :=
  match field h l "version" with
  | Some v => py_truthy v
  | None => false
  end.

(** The shape the loop body leaves a record in. *)
Definition is_rewritten (h : heap) (l : loc) : bool :=
  has_anon_name h l && has_demo_description h l && has_truthy_version h l.

(** A parsed value that is a registry record: a mapping with a string
    name. *)
Definition is_record_value (v : pyval) : bool :=
  match v with
  | PDict d => match d !! "name" with Some (PStr _) => true | _ => false end
  | _ => false
  end.

(** A parsed value that [len] accepts. *)
Definition is_sized (v : pyval) : bool :=
  match v with
  | PStr _ | PList _ | PDict _ => true
  | _ => false
  end.

(** A server passes the validator's three membership tests. *)
Definition passes_checks (server : pyval) : Prop :=
  forall key, In key required_fields -> py_contains_str key server = Ok true.

(** The text the closing report prints for a server: its name, as an
    f-string formats it. *)
Definition name_text (py_repr : pyval -> string) (server : pyval) : string :=
  match server with
  | PDict d =>
      match d !! "name" with
      | Some name => py_format py_repr name
      | None => ""
      end
  | _ => ""
  end.

(** The name the sampler gives a registry record. *)
Definition anon_name (server : pyval) : string :=
  match server with
  | PDict d =>
      match d !! "name" with
      | Some (PStr s) => ANON_PREFIX ++ local_part s
      | _ => ANON_PREFIX
      end
  | _ => ANON_PREFIX
  end.

(** Standard output can encode what the closing report prints of the
    input: the output path and the names of the first five servers. *)
Definition report_prints (py_repr : pyval -> string) (w : world)
    (output_file : string) (servers : list pyval) : bool :=
  stdout_encodes w output_file &&
  forallb (fun v => stdout_encodes w (name_text py_repr v)) (take 5 servers).

(** Two records that already carry every required field. *)
Definition complete_records : list pyval :=
  [ PDict {[ "name" := PStr "acme/tool"; "description" := PStr "A tool";
             "version" := PStr "0.3.0" ]};
    PDict {[ "name" := PStr "solo"; "description" := PStr "";
             "version" := PStr "1.2.3" ]} ].

Definition complete_world : world := serving (JsonText (PList complete_records)).

(** A record as the loop body leaves it. *)
Definition rewritten_record : gmap string pyval :=
  {[ "name" := PStr "io.modelcontextprotocol.anonymous/tool";
     "description" := PStr "[DEMO] No description";
     "version" := PStr "1.0.0" ]}.

(** Two objects, the first of which has no name. *)
Definition nameless_record : gmap string pyval :=
  {[ "description" := PStr "no name here" ]}.

Definition nameless_records : list pyval :=
  [ PDict nameless_record; PDict {[ "name" := PStr "a/b" ]} ].

(** The response the demo network gives. *)
Definition demo_response : response :=
  {| status := 200; reason := "OK"; body := JsonText (PList demo_records) |}.

Definition complete_response : response :=
  {| status := 200; reason := "OK"; body := JsonText (PList complete_records) |}.

(** A command line without a sample size: the default of 10 applies. *)
Definition short_argv : list string := ["fetch-seed-data.py"; "out.json"].

(** [int] on the arguments of the examples with a size that makes no
    sense, and a command line asking for minus three records. *)
Definition signed_int (s : string) : option Z :=
  if String.eqb s "-3" then Some (-3)
  else if String.eqb s "0" then Some 0
  else None.

Definition negative_argv : list string := ["fetch-seed-data.py"; "out.json"; "-3"].

(** * Properties *)

(** ** Strings *)

Lemma prefix_app (a b : string) : String.prefix a (a ++ b) = true.
Proof.
  induction a as [|c a IH].
  - now destruct b.
  - change (String.prefix (String c a) (String c (a ++ b)) = true).
    cbn [String.prefix].
    destruct (Ascii.ascii_dec c c); [exact IH | congruence].
Qed.

Lemma prefix_char (a b : ascii) (s : string) :
  String.prefix (String a EmptyString) (String b s) = Ascii.eqb b a.
Proof.
  cbn [String.prefix].
  destruct (Ascii.ascii_dec a b), (Ascii.eqb_spec b a); try congruence.
  now destruct s.
Qed.

Lemma str_contains_slash (s : string) :
  str_contains "/" s = bool_decide (is_Some (after_first_slash s)).
Proof.
  induction s as [|c s IH]; [reflexivity|].
  cbn [str_contains after_first_slash]. rewrite prefix_char, IH.
  now destruct (Ascii.eqb c "/").
Qed.

Lemma split_once_slash (s : string) :
  snd <$> split_once "/" s = after_first_slash s.
Proof.
  induction s as [|c s IH]; simpl; [reflexivity|].
  destruct (Ascii.eqb c "/"); [reflexivity|].
  rewrite <- IH. now destruct (split_once "/" s) as [[? ?]|].
Qed.

(** The conditional expression of the source computes the local part. *)
Lemma namespace_part_of_str (s : string) :
  namespace_part_of (PStr s) = Ok (PStr (local_part s)).
Proof.
  unfold namespace_part_of, local_part, py_split1, py_last.
  rewrite str_contains_slash, <- split_once_slash.
  destruct (split_once "/" s) as [[before after]|]; reflexivity.
Qed.

(** ** The store *)

Lemma deref_insert_eq (h : heap) (l : loc) (v : pyval) :
  (l < length h)%nat -> deref (<[l := v]> h) l = v.
Proof. intros Hl. unfold deref. now rewrite list_lookup_insert_eq. Qed.

Lemma deref_insert_ne (h : heap) (l l' : loc) (v : pyval) :
  l <> l' -> deref (<[l := v]> h) l' = deref h l'.
Proof. intros Hne. unfold deref. now rewrite list_lookup_insert_ne. Qed.

Lemma deref_dict_lt (h : heap) (l : loc) (d : gmap string pyval) :
  deref h l = PDict d -> (l < length h)%nat.
Proof.
  unfold deref. intros Hd. apply lookup_lt_is_Some.
  destruct (h !! l); [eauto | discriminate].
Qed.

Lemma same_other_fields_refl (v : pyval) : same_other_fields v v.
Proof. destruct v; simpl; auto. Qed.

Lemma same_other_fields_dict (v : pyval) (d' : gmap string pyval) :
  same_other_fields v (PDict d') -> exists d, v = PDict d.
Proof. destruct v; simpl; intros H; try discriminate; eauto. Qed.

Lemma same_other_fields_trans (u v w : pyval) :
  same_other_fields u v -> same_other_fields v w -> same_other_fields u w.
Proof.
  destruct u, v; simpl; intros Huv Hvw; try discriminate; subst; auto.
  destruct w; simpl in *; try discriminate.
  intros key H1 H2 H3. rewrite Hvw, Huv; auto.
Qed.

Section SamplerFacts.

Variable py_repr : pyval -> string.

Local Abbreviation py_format := (py_format py_repr).
Local Abbreviation rewrite_record := (rewrite_record py_repr).
Local Abbreviation rewrite_server := (rewrite_server py_repr).
Local Abbreviation create_sample_data := (create_sample_data py_repr).

(** *** What the loop body leaves in a record *)

Lemma rewrite_record_name d np :
  rewrite_record d np !! "name" = Some (PStr (ANON_PREFIX ++ py_format np)).
Proof.
  unfold rewrite_record.
  destruct (d !! "version") as [v|]; [destruct (py_truthy v)|];
    repeat (rewrite lookup_insert_ne by discriminate);
    apply lookup_insert_eq.
Qed.

Lemma rewrite_record_description d np :
  rewrite_record d np !! "description" =
  Some (PStr (DEMO_PREFIX ++
              py_format (default (PStr "No description") (d !! "description")))).
Proof.
  unfold rewrite_record.
  destruct (d !! "version") as [v|]; [destruct (py_truthy v)|];
    repeat (rewrite lookup_insert_ne by discriminate);
    apply lookup_insert_eq.
Qed.

Lemma rewrite_record_version d np :
  rewrite_record d np !! "version" =
  match d !! "version" with
  | Some v => if py_truthy v then Some v else Some (PStr "1.0.0")
  | None => Some (PStr "1.0.0")
  end.
Proof.
  unfold rewrite_record.
  destruct (d !! "version") as [v|] eqn:Hv; [destruct (py_truthy v)|];
    try apply lookup_insert_eq.
  now repeat (rewrite lookup_insert_ne by discriminate).
Qed.

Lemma rewrite_record_other d np key :
  key <> "name" -> key <> "description" -> key <> "version" ->
  rewrite_record d np !! key = d !! key.
Proof.
  intros H1 H2 H3. unfold rewrite_record.
  destruct (d !! "version") as [v|]; [destruct (py_truthy v)|];
    now repeat (rewrite lookup_insert_ne by congruence).
Qed.

(** *** One turn of the loop *)

Lemma rewrite_server_run l h d v :
  deref h l = PDict d -> d !! "name" = Some v ->
  rewrite_server l h =
  match namespace_part_of v with
  | Ok np => (Ok tt, <[l := PDict (rewrite_record d np)]> h)
  | Err e => (Err e, h)
  end.
Proof.
  intros Hd Hname. pose proof (deref_dict_lt _ _ _ Hd) as Hl.
  unfold rewrite_server, bind, getitem, lift, setitem, dict_get, contains, ret.
  rewrite Hd. cbn [py_getitem_str]. rewrite Hname.
  destruct (namespace_part_of v) as [np|e]; [|reflexivity].
  assert (Hins : forall (h0 : heap) x, (l < length h0)%nat ->
                 (l < length (<[l := x]> h0))%nat)
    by (intros; now rewrite length_insert).
  repeat (rewrite deref_insert_eq by auto; cbn beta iota).
  rewrite ?list_insert_insert_eq.
  rewrite (lookup_insert_ne _ "name" "description") by discriminate.
  unfold rewrite_record.
  set (d2 := <["description" := _]> _).
  assert (Hv2 : d2 !! "version" = d !! "version")
    by (unfold d2; now rewrite !lookup_insert_ne by discriminate).
  cbn [py_contains_str]. rewrite Hv2.
  destruct (d !! "version") as [ver|] eqn:Hver.
  - rewrite bool_decide_eq_true_2 by eauto. cbn [negb].
    repeat (rewrite deref_insert_eq by auto; cbn beta iota).
    cbn [py_getitem_str]. rewrite Hv2.
    destruct (py_truthy ver); cbn [negb]; [reflexivity|].
    repeat (rewrite deref_insert_eq by auto; cbn beta iota).
    now rewrite list_insert_insert_eq.
  - rewrite bool_decide_eq_false_2 by (intros [? ?]; discriminate). cbn [negb].
    repeat (rewrite deref_insert_eq by auto; cbn beta iota).
    now rewrite list_insert_insert_eq.
Qed.

Lemma rewrite_server_inv l h r h' :
  rewrite_server l h = (r, h') ->
  ((exists e, r = Err e) /\ h' = h) \/
  (exists d v np,
      deref h l = PDict d /\ d !! "name" = Some v /\
      namespace_part_of v = Ok np /\
      r = Ok tt /\ h' = <[l := PDict (rewrite_record d np)]> h).
Proof.
  destruct (deref h l) as [| | | | | |d] eqn:Hd;
    try (unfold rewrite_server, bind, getitem; rewrite Hd; cbn [py_getitem_str];
         intros [= <- <-]; left; eauto).
  destruct (d !! "name") as [v|] eqn:Hname.
  - rewrite (rewrite_server_run _ _ _ _ Hd Hname).
    destruct (namespace_part_of v) as [np|e] eqn:Hnp; intros [= <- <-].
    + right. exists d, v, np. auto.
    + left. eauto.
  - unfold rewrite_server, bind, getitem. rewrite Hd. cbn [py_getitem_str].
    rewrite Hname. intros [= <- <-]. left; eauto.
Qed.

(** What one turn does to the store as a whole. *)
Lemma rewrite_server_length l h r h' :
  rewrite_server l h = (r, h') -> length h' = length h.
Proof.
  intros H. destruct (rewrite_server_inv _ _ _ _ H)
    as [[_ ->]|(d & v & np & _ & _ & _ & _ & ->)]; [reflexivity|].
  apply length_insert.
Qed.

Lemma rewrite_server_elsewhere l h r h' l' :
  rewrite_server l h = (r, h') -> l' <> l -> h' !! l' = h !! l'.
Proof.
  intros H Hne. destruct (rewrite_server_inv _ _ _ _ H)
    as [[_ ->]|(d & v & np & _ & _ & _ & _ & ->)]; [reflexivity|].
  now apply list_lookup_insert_ne.
Qed.

Lemma rewrite_server_fields l h r h' l' :
  rewrite_server l h = (r, h') -> same_other_fields (deref h l') (deref h' l').
Proof.
  intros H. destruct (rewrite_server_inv _ _ _ _ H)
    as [[_ ->]|(d & v & np & Hd & _ & _ & _ & ->)];
    [apply same_other_fields_refl|].
  destruct (decide (l = l')) as [<-|Hne].
  - rewrite deref_insert_eq by eauto using deref_dict_lt. rewrite Hd.
    intros key H1 H2 H3. now apply rewrite_record_other.
  - rewrite deref_insert_ne by exact Hne. apply same_other_fields_refl.
Qed.

Lemma rewrite_server_anon l h h' :
  rewrite_server l h = (Ok tt, h') -> has_anon_name h' l = true.
Proof.
  intros H. destruct (rewrite_server_inv _ _ _ _ H)
    as [[[e [=]] _]|(d & v & np & Hd & _ & _ & _ & ->)].
  unfold has_anon_name, field.
  rewrite deref_insert_eq by eauto using deref_dict_lt.
  rewrite rewrite_record_name. apply prefix_app.
Qed.

Lemma rewrite_server_keeps_anon l h r h' l' :
  rewrite_server l h = (r, h') ->
  has_anon_name h l' = true -> has_anon_name h' l' = true.
Proof.
  intros H Hl'. destruct (decide (l' = l)) as [->|Hne].
  - destruct r as [[]|e]; [eauto using rewrite_server_anon|].
    destruct (rewrite_server_inv _ _ _ _ H)
      as [[_ ->]|(d & v & np & _ & _ & _ & [=] & _)]. exact Hl'.
  - unfold has_anon_name, field, deref in *.
    now rewrite (rewrite_server_elsewhere _ _ _ _ _ H Hne).
Qed.

Lemma rewrite_server_keeps_record l h r h' l' :
  rewrite_server l h = (r, h') ->
  is_record h l' = true -> is_record h' l' = true.
Proof.
  intros H Hl'. destruct (rewrite_server_inv _ _ _ _ H)
    as [[_ ->]|(d & v & np & Hd & _ & _ & _ & ->)]; [exact Hl'|].
  unfold is_record in *. destruct (decide (l = l')) as [<-|Hne].
  - rewrite deref_insert_eq by eauto using deref_dict_lt.
    now rewrite rewrite_record_name.
  - now rewrite deref_insert_ne.
Qed.

(** A record of the data model is rewritten without an exception. *)
Lemma rewrite_server_record l h :
  is_record h l = true ->
  exists d s,
    deref h l = PDict d /\ d !! "name" = Some (PStr s) /\
    rewrite_server l h =
    (Ok tt, <[l := PDict (rewrite_record d (PStr (local_part s)))]> h).
Proof.
  unfold is_record. destruct (deref h l) as [| | | | | |d] eqn:Hd; try discriminate.
  destruct (d !! "name") as [[| | | |s| |]|] eqn:Hname; try discriminate.
  intros _. exists d, s. repeat split; [exact Hname|].
  rewrite (rewrite_server_run _ _ _ _ Hd Hname).
  now rewrite namespace_part_of_str.
Qed.

(** *** The whole loop *)

Lemma for_each_cons_inv {A} (x : A) rest (body : A -> M unit) h r h' :
  for_each (x :: rest) body h = (r, h') ->
  exists r1 h1,
    body x h = (r1, h1) /\
    ((r1 = Ok tt /\ for_each rest body h1 = (r, h')) \/
     (exists e, r1 = Err e /\ r = Err e /\ h' = h1)).
Proof.
  cbn [for_each]. unfold bind.
  destruct (body x h) as [[[]|e] h1]; intros H.
  - exists (Ok tt), h1. auto.
  - injection H as <- <-. exists (Err e), h1. split; [reflexivity|]. right. eauto.
Qed.

Ltac loop_step H :=
  apply for_each_cons_inv in H;
  destruct H as (?r1 & ?h1 & ?Hstep & [[? ?Hrest]|(?e & ? & ? & ?)]);
  try discriminate; subst.

Lemma for_each_length ls h r h' :
  for_each ls rewrite_server h = (r, h') -> length h' = length h.
Proof.
  revert h. induction ls as [|l ls IH]; intros h H.
  - now injection H as <- <-.
  - loop_step H.
    + rewrite (IH _ Hrest). eauto using rewrite_server_length.
    + eauto using rewrite_server_length.
Qed.

Lemma for_each_elsewhere ls h r h' l' :
  for_each ls rewrite_server h = (r, h') -> l' ∉ ls -> h' !! l' = h !! l'.
Proof.
  revert h. induction ls as [|l ls IH]; intros h H Hnot.
  - now injection H as <- <-.
  - apply not_elem_of_cons in Hnot as [Hne Hnot]. loop_step H.
    + rewrite (IH _ Hrest Hnot). eauto using rewrite_server_elsewhere.
    + eauto using rewrite_server_elsewhere.
Qed.

Lemma for_each_fields ls h r h' l' :
  for_each ls rewrite_server h = (r, h') ->
  same_other_fields (deref h l') (deref h' l').
Proof.
  revert h. induction ls as [|l ls IH]; intros h H.
  - injection H as <- <-. apply same_other_fields_refl.
  - loop_step H.
    + eapply same_other_fields_trans; [|eapply IH, Hrest].
      eauto using rewrite_server_fields.
    + eauto using rewrite_server_fields.
Qed.

Lemma for_each_keeps_anon ls h r h' l' :
  for_each ls rewrite_server h = (r, h') ->
  has_anon_name h l' = true -> has_anon_name h' l' = true.
Proof.
  revert h. induction ls as [|l ls IH]; intros h H Hl'.
  - now injection H as <- <-.
  - loop_step H.
    + eapply IH; [exact Hrest|]. eauto using rewrite_server_keeps_anon.
    + eauto using rewrite_server_keeps_anon.
Qed.

Lemma for_each_anon ls h h' l :
  for_each ls rewrite_server h = (Ok tt, h') -> l ∈ ls ->
  has_anon_name h' l = true.
Proof.
  revert h. induction ls as [|l0 ls IH]; intros h H Hin.
  - now apply elem_of_nil in Hin.
  - loop_step H.
    apply elem_of_cons in Hin as [->|Hin]; [|eauto].
    eapply for_each_keeps_anon; [exact Hrest|].
    eauto using rewrite_server_anon.
Qed.

Lemma for_each_records ls h :
  Forall (fun l => is_record h l = true) ls ->
  exists h', for_each ls rewrite_server h = (Ok tt, h').
Proof.
  revert h. induction ls as [|l ls IH]; intros h Hall.
  - exists h. reflexivity.
  - apply Forall_cons in Hall as [Hl Hall].
    destruct (rewrite_server_record _ _ Hl) as (d & s & _ & _ & Hrun).
    destruct (IH (<[l := PDict (rewrite_record d (PStr (local_part s)))]> h))
      as [h' Hh'].
    + eapply Forall_impl; [exact Hall|].
      intros l' Hl'. eauto using rewrite_server_keeps_record.
    + exists h'. cbn [for_each]. unfold bind. now rewrite Hrun.
Qed.

(** When no object is visited twice, each visited record is rewritten
    exactly once, from its original contents. *)
Lemma for_each_once ls h h' l :
  for_each ls rewrite_server h = (Ok tt, h') -> NoDup ls -> l ∈ ls ->
  exists d v np,
    deref h l = PDict d /\ d !! "name" = Some v /\
    namespace_part_of v = Ok np /\
    deref h' l = PDict (rewrite_record d np).
Proof.
  revert h. induction ls as [|l0 ls IH]; intros h H Hnd Hin.
  - now apply elem_of_nil in Hin.
  - apply NoDup_cons in Hnd as [Hfresh Hnd].
    loop_step H.
    destruct (rewrite_server_inv _ _ _ _ Hstep)
      as [[[e [=]] _]|(d & v & np & Hd & Hname & Hnp & _ & ->)].
    apply elem_of_cons in Hin as [->|Hin].
    + exists d, v, np. repeat split; try assumption.
      unfold deref. rewrite (for_each_elsewhere _ _ _ _ _ Hrest Hfresh).
      fold (deref (<[l0 := PDict (rewrite_record d np)]> h) l0).
      apply deref_insert_eq. eauto using deref_dict_lt.
    + destruct (IH _ Hrest Hnd Hin) as (d' & v' & np' & Hd' & ?).
      assert (l <> l0) by (intros ->; contradiction).
      rewrite deref_insert_ne in Hd' by congruence. eauto 10.
Qed.

(** *** Choosing the sample *)

Lemma seq_index_nat (n i : nat) :
  (i < n)%nat -> seq_index (Z.of_nat n) (Z.of_nat i) = Some i.
Proof.
  intros Hi. unfold seq_index.
  destruct (Z.ltb_spec (Z.of_nat i) 0) as [?|_]; [lia|].
  destruct (Z.leb_spec 0 (Z.of_nat i)) as [_|?]; [|lia].
  destruct (Z.ltb_spec (Z.of_nat i) (Z.of_nat n)) as [_|?]; [|lia].
  cbn [andb]. now rewrite Nat2Z.id.
Qed.

(** Subscripting a list of stored objects reads the store but never
    changes it. *)
Lemma comprehension_list refs (f : nat -> nat) (g : nat -> Z) idxs h :
  (forall i, i ∈ idxs -> g i = Z.of_nat (f i) /\ (f i < length refs)%nat) ->
  comprehension (py_getitem (OList refs)) (map g idxs) h
  = (Ok (omap (fun i => refs !! f i) idxs), h).
Proof.
  induction idxs as [|i idxs IH]; intros Hall; [reflexivity|].
  destruct (Hall i) as [Hg Hlt]; [left|].
  cbn [map comprehension omap list_omap]. unfold bind at 1.
  unfold py_getitem at 1. rewrite Hg, (seq_index_nat _ _ Hlt).
  destruct (lookup_lt_is_Some_2 refs (f i) Hlt) as [l Hl]. rewrite Hl.
  unfold bind. rewrite IH by (intros; apply Hall; now right).
  reflexivity.
Qed.

Lemma omap_total {A B} (g : A -> option B) (l : list A) :
  (forall x, x ∈ l -> is_Some (g x)) ->
  Forall2 (fun x y => g x = Some y) l (omap g l).
Proof.
  induction l as [|x l IH]; intros Hall; [constructor|].
  cbn [omap list_omap]. destruct (Hall x) as [y Hy]; [left|]. rewrite Hy.
  constructor; [exact Hy|]. apply IH. intros; apply Hall; now right.
Qed.

Section Spread.

Variables (refs : list loc) (k : Z).
Hypothesis Hk : 1 <= k < Z.of_nat (length refs).

Lemma spread_step_Z :
  Z.of_nat (spread_step (length refs) k) = Z.of_nat (length refs) / k.
Proof. unfold spread_step. apply Z2Nat.id, Z.div_pos; lia. Qed.

Lemma spread_step_pos : (1 <= spread_step (length refs) k)%nat.
Proof.
  pose proof spread_step_Z as HZ.
  assert (1 <= Z.of_nat (length refs) / k); [|lia].
  apply Z.div_le_lower_bound; lia.
Qed.

Lemma spread_in_range (i : nat) :
  (i < Z.to_nat k)%nat -> (i * spread_step (length refs) k < length refs)%nat.
Proof.
  intros Hi. pose proof spread_step_Z as HZ. pose proof spread_step_pos as Hpos.
  pose proof (Z.mul_div_le (Z.of_nat (length refs)) k) as Hle.
  nia.
Qed.

Lemma spread_Forall2 :
  Forall2 (fun i l => refs !! (i * spread_step (length refs) k)%nat = Some l)
          (seq 0 (Z.to_nat k)) (spread refs k).
Proof.
  apply omap_total. intros i Hi. apply lookup_lt_is_Some_2, spread_in_range.
  apply elem_of_seq in Hi. lia.
Qed.

Lemma spread_length : length (spread refs k) = Z.to_nat k.
Proof. rewrite <- (Forall2_length _ _ _ spread_Forall2). apply length_seq. Qed.

Lemma spread_lookup (i : nat) :
  (i < Z.to_nat k)%nat ->
  spread refs k !! i = refs !! (i * spread_step (length refs) k)%nat.
Proof.
  intros Hi.
  destruct (Forall2_lookup_l _ _ _ i i spread_Forall2) as (l & Hl & Heq).
  - apply lookup_seq. lia.
  - now rewrite Hl, Heq.
Qed.

Lemma sample_indices_spread h :
  comprehension (py_getitem (OList refs))
    (map (fun i => i * (Z.of_nat (length refs) / k)) (py_range k)) h
  = (Ok (spread refs k), h).
Proof.
  unfold py_range. rewrite List.map_map.
  apply (comprehension_list refs (fun i => (i * spread_step (length refs) k)%nat)).
  intros i Hi. apply elem_of_seq in Hi. split.
  - rewrite Nat2Z.inj_mul, spread_step_Z. reflexivity.
  - apply spread_in_range. lia.
Qed.

End Spread.

Lemma spread_nonpositive refs k : k <= 0 -> spread refs k = [].
Proof. intros Hk. unfold spread. now replace (Z.to_nat k) with 0%nat by lia. Qed.

(** [create_sample_data] on a list, one branch of the source per line. *)
Lemma create_sample_data_list refs k h :
  create_sample_data (OList refs) k h =
  if Z.leb (Z.of_nat (length refs)) k then (Ok (OList refs), h)
  else if Z.eqb k 0 then (Err ZeroDivisionError, h)
  else match for_each (spread refs k) rewrite_server h with
       | (Ok _, h') => (Ok (OList (spread refs k)), h')
       | (Err e, h') => (Err e, h')
       end.
Proof.
  unfold create_sample_data, bind, lift, ret, py_floordiv. cbn [py_len].
  destruct (Z.leb_spec (Z.of_nat (length refs)) k) as [|Hlt]; [reflexivity|].
  destruct (Z.eqb_spec k 0) as [|Hne]; [reflexivity|].
  destruct (Z.le_gt_cases 1 k) as [Hpos|Hneg].
  - rewrite sample_indices_spread by lia. reflexivity.
  - rewrite spread_nonpositive by lia.
    unfold py_range. replace (Z.to_nat k) with 0%nat by lia. reflexivity.
Qed.

Lemma spread_elem refs k l :
  1 <= k < Z.of_nat (length refs) -> l ∈ spread refs k ->
  exists i, (i < Z.to_nat k)%nat /\
            refs !! (i * spread_step (length refs) k)%nat = Some l.
Proof.
  intros Hk Hin. apply list_elem_of_lookup in Hin as [i Hi].
  assert (i < Z.to_nat k)%nat as Hlt
    by (rewrite <- (spread_length refs k Hk); eauto using lookup_lt_Some).
  exists i. split; [exact Hlt|]. now rewrite <- spread_lookup.
Qed.

Lemma spread_NoDup refs k :
  1 <= k < Z.of_nat (length refs) -> NoDup refs -> NoDup (spread refs k).
Proof.
  intros Hk Hnd. apply NoDup_alt. intros i j l Hi Hj.
  assert (i < Z.to_nat k)%nat as Hilt
    by (rewrite <- (spread_length refs k Hk); eauto using lookup_lt_Some).
  assert (j < Z.to_nat k)%nat as Hjlt
    by (rewrite <- (spread_length refs k Hk); eauto using lookup_lt_Some).
  rewrite spread_lookup in Hi, Hj by assumption.
  pose proof (NoDup_lookup _ _ _ _ Hnd Hi Hj) as Heq.
  pose proof (spread_step_pos refs k Hk). nia.
Qed.

Lemma create_sample_data_between refs k h :
  1 <= k < Z.of_nat (length refs) ->
  create_sample_data (OList refs) k h =
  match for_each (spread refs k) rewrite_server h with
  | (Ok _, h') => (Ok (OList (spread refs k)), h')
  | (Err e, h') => (Err e, h')
  end.
Proof.
  intros Hk. rewrite create_sample_data_list.
  destruct (Z.leb_spec (Z.of_nat (length refs)) k); [lia|].
  destruct (Z.eqb_spec k 0); [lia|reflexivity].
Qed.

Lemma spread_records refs k h :
  1 <= k < Z.of_nat (length refs) ->
  (forall i l, (i < Z.to_nat k)%nat ->
     refs !! (i * spread_step (length refs) k)%nat = Some l ->
     is_record h l = true) ->
  exists h', for_each (spread refs k) rewrite_server h = (Ok tt, h').
Proof.
  intros Hk Hrec. apply for_each_records, Forall_forall. intros l Hl.
  destruct (spread_elem _ _ _ Hk Hl) as (i & Hi & Hl'). eauto.
Qed.

(** What [create_sample_data] may change in the store, whatever it
    returns. *)
Lemma create_sample_data_list_frame refs k h r h' :
  create_sample_data (OList refs) k h = (r, h') ->
  length h' = length h /\
  (forall l, same_other_fields (deref h l) (deref h' l)) /\
  (forall l, (forall i, (i < Z.to_nat k)%nat ->
                refs !! (i * spread_step (length refs) k)%nat <> Some l) ->
             h' !! l = h !! l).
Proof.
  intros Hcreate. rewrite create_sample_data_list in Hcreate.
  assert (Hsame : h' = h -> length h' = length h /\
            (forall l, same_other_fields (deref h l) (deref h' l)) /\
            (forall l : loc, h' !! l = h !! l)).
  { intros ->. auto using same_other_fields_refl. }
  destruct (Z.leb_spec (Z.of_nat (length refs)) k) as [|Hlt].
  { injection Hcreate as _ <-. destruct Hsame as (? & ? & ?); auto. }
  destruct (Z.eqb_spec k 0) as [|Hne].
  { injection Hcreate as _ <-. destruct Hsame as (? & ? & ?); auto. }
  destruct (for_each _ _ _) as [r1 h1] eqn:Hloop.
  assert (h1 = h') as -> by (destruct r1; now injection Hcreate).
  split; [eauto using for_each_length|].
  split; [eauto using for_each_fields|].
  intros l Hl. eapply for_each_elsewhere; [exact Hloop|].
  destruct (Z.le_gt_cases 1 k) as [Hpos|Hneg].
  - intros Hin. destruct (spread_elem _ _ _ (conj Hpos Hlt) Hin) as (i & Hi & Hil).
    exact (Hl i Hi Hil).
  - rewrite spread_nonpositive by lia. apply not_elem_of_nil.
Qed.

(** ** The sampler: the claims *)

(** C1. For a list of [n] records and [1 <= k < n], the sample is made of
    the [k] objects at positions [0, step, 2*step, ..., (k-1)*step] with
    [step = floor(n/k)]: these positions are strictly increasing and all
    below [n]; any normal return yields that sample, and the function does
    return normally when the selected objects are records. *)
Theorem create_sample_data_spread (h : heap) (full_data : list loc) (k : Z) :
  let n := length full_data in
  let step := spread_step n k in
  1 <= k < Z.of_nat n ->
  exists sample : list loc,
    length sample = Z.to_nat k /\
    Z.of_nat step = Z.of_nat n / k /\
    (forall i, (i < Z.to_nat k)%nat ->
       (i * step < n)%nat /\ sample !! i = full_data !! (i * step)%nat) /\
    (forall i j, (i < j)%nat -> (i * step < j * step)%nat) /\
    (forall out h', create_sample_data (OList full_data) k h = (Ok out, h') ->
       out = OList sample) /\
    ((forall i l, (i < Z.to_nat k)%nat ->
        full_data !! (i * step)%nat = Some l -> is_record h l = true) ->
     exists h', create_sample_data (OList full_data) k h = (Ok (OList sample), h')).
Proof.
  intros n step Hk. subst n step. exists (spread full_data k).
  pose proof (spread_step_pos full_data k Hk) as Hpos.
  pose proof (create_sample_data_between full_data k h Hk) as Hcreate.
  split; [now apply spread_length|].
  split; [now apply spread_step_Z|].
  split; [|split; [|split]].
  - intros i Hi. split; [now apply spread_in_range | now apply spread_lookup].
  - intros i j Hij. nia.
  - intros out h'. rewrite Hcreate.
    destruct (for_each _ _ _) as [[[]|e] h1]; now intros [= <- <-].
  - intros Hrec. destruct (spread_records full_data k h Hk Hrec) as [h' Hh'].
    exists h'. now rewrite Hcreate, Hh'.
Qed.

(** C2. When the list has at most [k] records, the very same list is
    returned and the store is left as it was: no field of any record is
    rewritten. *)
Theorem create_sample_data_verbatim (h : heap) (full_data : list loc) (k : Z) :
  Z.of_nat (length full_data) <= k ->
  create_sample_data (OList full_data) k h = (Ok (OList full_data), h).
Proof.
  intros Hle. rewrite create_sample_data_list.
  destruct (Z.leb_spec (Z.of_nat (length full_data)) k); [reflexivity|lia].
Qed.

Lemma has_anon_name_spec h l :
  has_anon_name h l = true ->
  exists s, field h l "name" = Some (PStr s) /\ String.prefix ANON_PREFIX s = true.
Proof.
  unfold has_anon_name.
  destruct (field h l "name") as [[| | | |s| |]|]; try discriminate. eauto.
Qed.

(** C3. For [1 <= k < n] and a list of distinct records, each selected
    record ends with: the name ["io.modelcontextprotocol.anonymous/"]
    followed by the local part of its original name; the description
    ["[DEMO] "] followed by its original description, or by
    ["No description"] if it had none; the version ["1.0.0"] if it had
    none or a falsy one, and its original version otherwise. *)
Theorem create_sample_data_rewrites (h : heap) (full_data : list loc) (k : Z) :
  let n := length full_data in
  let step := spread_step n k in
  1 <= k < Z.of_nat n ->
  NoDup full_data ->
  (forall i l, (i < Z.to_nat k)%nat ->
     full_data !! (i * step)%nat = Some l -> is_record h l = true) ->
  exists sample h',
    create_sample_data (OList full_data) k h = (Ok (OList sample), h') /\
    forall i, (i < Z.to_nat k)%nat ->
      exists l d s,
        sample !! i = Some l /\ full_data !! (i * step)%nat = Some l /\
        deref h l = PDict d /\ d !! "name" = Some (PStr s) /\
        field h' l "name" = Some (PStr (ANON_PREFIX ++ local_part s)) /\
        field h' l "description" =
          Some (PStr (DEMO_PREFIX ++ match d !! "description" with
                                     | Some v => py_format v
                                     | None => "No description"
                                     end)) /\
        field h' l "version" =
          match d !! "version" with
          | Some v => if py_truthy v then Some v else Some (PStr "1.0.0")
          | None => Some (PStr "1.0.0")
          end.
Proof.
  intros n step Hk Hnd Hrec. subst n step.
  destruct (spread_records full_data k h Hk Hrec) as [h' Hloop].
  exists (spread full_data k), h'. split.
  { now rewrite create_sample_data_between, Hloop. }
  intros i Hi.
  destruct (lookup_lt_is_Some_2 full_data _ (spread_in_range _ _ Hk i Hi))
    as [l Hl].
  assert (Hsample : spread full_data k !! i = Some l)
    by now rewrite spread_lookup.
  destruct (for_each_once _ _ _ l Hloop) as (d & v & np & Hd & Hname & Hnp & Hd').
  { now apply spread_NoDup. }
  { eauto using list_elem_of_lookup_2. }
  pose proof (Hrec i l Hi Hl) as Hr. unfold is_record in Hr.
  rewrite Hd, Hname in Hr. destruct v as [| | | |s| |]; try discriminate.
  rewrite namespace_part_of_str in Hnp. injection Hnp as <-.
  exists l, d, s. unfold field. rewrite Hd'.
  rewrite rewrite_record_name, rewrite_record_description, rewrite_record_version.
  repeat split; try assumption.
  now destruct (d !! "description").
Qed.

(** C4, as amended. When the list has more than [k] records, every record
    of the returned sample has a name that starts with
    ["io.modelcontextprotocol.anonymous/"]. *)
Theorem create_sample_data_anon
    (h : heap) (full_data : list loc) (k : Z) (sample : list loc) (h' : heap) :
  k < Z.of_nat (length full_data) ->
  create_sample_data (OList full_data) k h = (Ok (OList sample), h') ->
  forall l, l ∈ sample ->
    exists s, field h' l "name" = Some (PStr s) /\
              String.prefix ANON_PREFIX s = true.
Proof.
  intros Hlt Hcreate l Hl. apply has_anon_name_spec.
  rewrite create_sample_data_list in Hcreate.
  destruct (Z.leb_spec (Z.of_nat (length full_data)) k); [lia|].
  destruct (Z.eqb_spec k 0); [discriminate|].
  destruct (for_each _ _ _) as [[[]|e] h1] eqn:Hloop; [|discriminate].
  injection Hcreate as <- <-. eauto using for_each_anon.
Qed.

(** C5, as amended. For [k < 0], and for [k = 0] on an empty list, the
    index list is empty and an empty sample is returned; nothing is
    raised and the store is untouched. *)
Theorem create_sample_data_nonpositive (h : heap) (full_data : list loc) (k : Z) :
  k < 0 \/ (k = 0 /\ full_data = []) ->
  create_sample_data (OList full_data) k h = (Ok (OList []), h).
Proof.
  intros [Hneg|[-> ->]]; [|reflexivity].
  rewrite create_sample_data_list.
  destruct (Z.leb_spec (Z.of_nat (length full_data)) k); [lia|].
  destruct (Z.eqb_spec k 0); [lia|].
  now rewrite spread_nonpositive by lia.
Qed.

(** C10. Whatever the outcome, [create_sample_data] leaves every field
    other than [name], [description] and [version] of every stored object
    as it was, allocates nothing, and does not touch an object that sits
    at no selected position; in a list of distinct objects, the records
    at unselected positions are therefore unchanged. *)
Theorem create_sample_data_frame
    (h : heap) (full_data : list loc) (k : Z) (r : result pyobj) (h' : heap) :
  let step := spread_step (length full_data) k in
  create_sample_data (OList full_data) k h = (r, h') ->
  length h' = length h /\
  (forall l, same_other_fields (deref h l) (deref h' l)) /\
  (forall l, (forall i, (i < Z.to_nat k)%nat ->
                full_data !! (i * step)%nat <> Some l) ->
             h' !! l = h !! l) /\
  (NoDup full_data ->
   forall j l, full_data !! j = Some l ->
     (forall i, (i < Z.to_nat k)%nat -> j <> (i * step)%nat) ->
     h' !! l = h !! l).
Proof.
  intros step Hcreate. subst step.
  destruct (create_sample_data_list_frame _ _ _ _ _ Hcreate)
    as (Hlen & Hfields & Hobj).
  repeat split; try assumption.
  intros Hnd j l Hj Hpos. apply Hobj. intros i Hi Hil.
  apply (Hpos i Hi). exact (NoDup_lookup _ _ _ _ Hnd Hj Hil).
Qed.

End SamplerFacts.

(** ** The sampler on the sample data *)

Lemma create_sample_data_spread_witness :
  1 <= 2 < Z.of_nat (length demo_list) /\
  exists sample,
    length sample = 2%nat /\
    sample !! 0%nat = Some 0%nat /\ sample !! 1%nat = Some 2%nat /\
    exists h', create_sample_data demo_repr (OList demo_list) 2 demo_records
               = (Ok (OList sample), h').
Proof.
  assert (Hk : 1 <= 2 < Z.of_nat (length demo_list)) by (cbn; lia).
  split; [exact Hk|].
  destruct (create_sample_data_spread demo_repr demo_records demo_list 2 Hk)
    as (sample & Hlen & _ & Hidx & _ & _ & Hruns).
  exists sample. split; [exact Hlen|].
  split; [exact (proj2 (Hidx 0%nat ltac:(cbn; lia)))|].
  split; [exact (proj2 (Hidx 1%nat ltac:(cbn; lia)))|].
  apply Hruns. intros i l Hi.
  destruct i as [|[|i]]; [| |cbn in Hi; lia]; intros [= <-]; reflexivity.
Defined.

Lemma create_sample_data_verbatim_witness :
  Z.of_nat (length demo_list) <= 10 /\
  create_sample_data demo_repr (OList demo_list) 10 demo_records
  = (Ok (OList demo_list), demo_records).
Proof.
  assert (Hle : Z.of_nat (length demo_list) <= 10) by (cbn; lia).
  split; [exact Hle|].
  exact (create_sample_data_verbatim demo_repr demo_records demo_list 10 Hle).
Defined.

(** Scenario B of the specification, in small: the record ["acme/tool"]
    with neither description nor version. *)
Lemma create_sample_data_rewrites_witness :
  1 <= 2 < Z.of_nat (length demo_list) /\ NoDup demo_list /\
  exists sample h',
    create_sample_data demo_repr (OList demo_list) 2 demo_records
    = (Ok (OList sample), h') /\
    sample !! 0%nat = Some 0%nat /\
    field h' 0%nat "name" = Some (PStr "io.modelcontextprotocol.anonymous/tool") /\
    field h' 0%nat "description" = Some (PStr "[DEMO] No description") /\
    field h' 0%nat "version" = Some (PStr "1.0.0").
Proof.
  assert (Hk : 1 <= 2 < Z.of_nat (length demo_list)) by (cbn; lia).
  assert (Hnd : NoDup demo_list) by (apply (bool_decide_unpack _); vm_compute; exact I).
  split; [exact Hk|]. split; [exact Hnd|].
  destruct (create_sample_data_rewrites demo_repr demo_records demo_list 2 Hk Hnd)
    as (sample & h' & Hcreate & Hall).
  { intros i l Hi.
    destruct i as [|[|i]]; [| |cbn in Hi; lia]; intros [= <-]; reflexivity. }
  exists sample, h'. split; [exact Hcreate|].
  destruct (Hall 0%nat ltac:(cbn; lia))
    as (l & d & s & Hs & Hl & Hd & Hname & Hn & Hdesc & Hver).
  injection Hl as <-. injection Hd as <-. injection Hname as <-.
  repeat split; assumption.
Defined.

Lemma create_sample_data_anon_witness :
  2 < Z.of_nat (length demo_list) /\
  exists s,
    field (create_sample_data demo_repr (OList demo_list) 2 demo_records).2
          2%nat "name" = Some (PStr s) /\
    String.prefix ANON_PREFIX s = true.
Proof.
  assert (Hk : 2 < Z.of_nat (length demo_list)) by (cbn; lia).
  split; [exact Hk|].
  apply (create_sample_data_anon demo_repr demo_records demo_list 2
           [0; 2]%nat _ Hk).
  - vm_compute. reflexivity.
  - apply list_elem_of_In. cbn. auto.
Defined.

Lemma create_sample_data_nonpositive_witness :
  (-3 < 0 \/ (-3 = 0 /\ demo_list = [])) /\
  create_sample_data demo_repr (OList demo_list) (-3) demo_records
  = (Ok (OList []), demo_records).
Proof.
  assert (H : -3 < 0 \/ (-3 = 0 /\ demo_list = [])) by (left; lia).
  split; [exact H|].
  exact (create_sample_data_nonpositive demo_repr demo_records demo_list (-3) H).
Defined.

Lemma create_sample_data_frame_witness :
  let h' := (create_sample_data demo_repr (OList demo_list) 2 demo_records).2 in
  NoDup demo_list /\
  length h' = length demo_records /\
  h' !! 1%nat = demo_records !! 1%nat /\
  h' !! 3%nat = demo_records !! 3%nat /\
  same_other_fields (deref demo_records 2%nat) (deref h' 2%nat).
Proof.
  intros h'.
  assert (Hnd : NoDup demo_list) by (apply (bool_decide_unpack _); vm_compute; exact I).
  destruct (create_sample_data_frame demo_repr demo_records demo_list 2
              (create_sample_data demo_repr (OList demo_list) 2 demo_records).1
              h')
    as (Hlen & Hfields & _ & Hpos).
  { subst h'. now destruct (create_sample_data _ _ _ _). }
  split; [exact Hnd|]. split; [exact Hlen|].
  split; [|split].
  - apply (Hpos Hnd 1%nat 1%nat); [reflexivity|].
    intros i Hi. change (spread_step (length demo_list) 2) with 2%nat. lia.
  - apply (Hpos Hnd 3%nat 3%nat); [reflexivity|].
    intros i Hi. change (spread_step (length demo_list) 2) with 2%nat.
    cbn in Hi. lia.
  - apply Hfields.
Defined.

(** Scenario A of the specification: fewer records than requested.  The
    sample is the input as it stands, and its first record keeps the name
    ["acme/tool"], which is not under the anonymous namespace. *)
Lemma create_sample_data_anon_counterexample :
  create_sample_data demo_repr (OList demo_list) 10 demo_records
  = (Ok (OList demo_list), demo_records) /\
  0%nat ∈ demo_list /\
  field demo_records 0%nat "name" = Some (PStr "acme/tool") /\
  String.prefix ANON_PREFIX "acme/tool" = false.
Proof.
  split; [vm_compute; reflexivity|].
  split; [apply list_elem_of_In; cbn; auto|].
  split; reflexivity.
Qed.

(** A request for zero records from a non-empty list divides by zero. *)
Lemma create_sample_data_nonpositive_counterexample :
  0 <= 0 /\
  create_sample_data demo_repr (OList demo_list) 0 demo_records
  = (Err ZeroDivisionError, demo_records).
Proof. split; [lia | vm_compute; reflexivity]. Qed.

(** ** The validator *)

Lemma check_fields_ok (i : nat) (v : pyval) :
  check_fields i v required_fields = Ok tt <->
  py_contains_str "name" v = Ok true /\
  py_contains_str "description" v = Ok true /\
  py_contains_str "version" v = Ok true.
Proof.
  unfold required_fields. cbn [check_fields].
  destruct (py_contains_str "name" v) as [[]|];
    destruct (py_contains_str "description" v) as [[]|];
    destruct (py_contains_str "version" v) as [[]|];
    split; intros H; try discriminate; try reflexivity; auto;
    destruct H as (? & ? & ?); discriminate.
Qed.

Lemma check_servers_ok (i : nat) (servers : list pyval) :
  check_servers i servers = Ok tt <->
  Forall (fun v => check_fields 0 v required_fields = Ok tt) servers.
Proof.
  revert i. induction servers as [|v servers IH]; intros i; cbn [check_servers].
  - split; [constructor | reflexivity].
  - rewrite Forall_cons, <- (IH (S i)).
    destruct (check_fields i v required_fields) as [[]|e] eqn:Hv.
    + apply check_fields_ok in Hv. apply (check_fields_ok 0) in Hv. tauto.
    + split; [discriminate|]. intros [Hv0 _].
      apply check_fields_ok in Hv0. apply (check_fields_ok i) in Hv0. congruence.
Qed.

Lemma validate_checks_inv (fs : disk) (path : string) (n : nat) :
  validate_checks fs path = Ok n ->
  exists servers,
    fs !! path = Some (JsonText (PList servers)) /\ servers <> [] /\
    check_servers 0 servers = Ok tt /\ n = length servers.
Proof.
  unfold validate_checks, read_json.
  destruct (fs !! path) as [[v|raw|]|]; try discriminate. cbn [json_loads].
  destruct v as [| | | | |servers|]; try discriminate.
  destruct servers as [|v servers]; [discriminate|].
  cbn [length Nat.eqb].
  destruct (check_servers 0 (v :: servers)) as [[]|e] eqn:Hall; [|discriminate].
  intros [= <-]. exists (v :: servers). repeat split; [discriminate|exact Hall].
Qed.

Lemma validate_checks_intro (fs : disk) (path : string) (servers : list pyval) :
  fs !! path = Some (JsonText (PList servers)) -> servers <> [] ->
  check_servers 0 servers = Ok tt ->
  validate_checks fs path = Ok (length servers).
Proof.
  intros Hfile Hne Hall. unfold validate_checks, read_json.
  rewrite Hfile. cbn [json_loads].
  destruct servers as [|v servers]; [congruence|].
  cbn [length Nat.eqb]. now rewrite Hall.
Qed.

Lemma has_required_fields_checked (i : nat) (v : pyval) :
  has_required_fields v = true -> check_fields i v required_fields = Ok tt.
Proof.
  destruct v as [| | | | | |d]; try discriminate. cbn [has_required_fields].
  rewrite !andb_true_iff. intros [[H1 H2] H3].
  apply check_fields_ok. cbn [py_contains_str]. now rewrite H1, H2, H3.
Qed.

Lemma save_sample_data_inv w h sample_data output_file (fs fs' : disk) :
  save_sample_data w h sample_data output_file fs = (Ok tt, fs') ->
  fault_at w output_file = None /\
  fs' = <[output_file := JsonText (snapshot h sample_data)]> fs.
Proof.
  unfold save_sample_data.
  destruct (fault_at w output_file) as [[| |partial]|]; try discriminate.
  destruct (py_len sample_data); [|discriminate]. now intros [= <-].
Qed.




(** ** The fetcher *)

Lemma fetch_seed_data_inv (w : world) (url : string) (h : heap) (data : pyobj) :
  fetch_seed_data w url = Ok (h, data) ->
  exists r v, urlopen w url = Responds r /\ body r = JsonText v /\
              load v = (h, data).
Proof.
  unfold fetch_seed_data. destruct (urlopen w url) as [e|r]; [discriminate|].
  destruct (negb (status r =? 200)%Z); [discriminate|].
  destruct (body r) as [v|raw|] eqn:Hbody; try discriminate. cbn [json_loads].
  destruct (load v) as [h0 data0] eqn:Hload.
  destruct (py_len data0); [|discriminate].
  intros [= <- <-]. exists r, v. auto.
Qed.

(** C6: where the code departs from the claim.  A 200 response whose body
    is the JSON object [{"servers": []}] parses, has a length, and is
    handed on by [fetch_seed_data] as a mapping: nothing is raised.  The
    mapping goes through the sampler and is written to the output file;
    only the validator turns it down. *)
Theorem fetch_seed_data_returns_object :
  fetch_seed_data object_world SEED_DATA_URL = Ok ([], ODict object_doc) /\
  main demo_repr demo_int object_world demo_argv ∅
  = (1, {[ "out.json" := JsonText (PDict object_doc) ]}).
Proof. split; [reflexivity | vm_compute; reflexivity]. Qed.

Section PipelineFacts.

Variable py_repr : pyval -> string.
Variable py_int : string -> option Z.

Local Abbreviation create_sample_data := (create_sample_data py_repr).
Local Abbreviation main := (main py_repr py_int).
Local Abbreviation first_failure := (first_failure py_repr py_int).

(** C8. If the body of the response is not valid JSON, the process exits
    with status 1 and the disk is left exactly as it was: no file is
    created at the output path and a file already there keeps its
    contents. *)
Theorem main_malformed_body
    (w : world) (argv : list string) (fs : disk) (r : response) (raw : string) :
  urlopen w SEED_DATA_URL = Responds r ->
  body r = Malformed raw ->
  main w argv fs = (1, fs).
Proof.
  intros Hopen Hbody. unfold main, fetch_seed_data.
  rewrite Hopen, Hbody. cbn [json_loads].
  destruct (warning_raises py_int w argv); [reflexivity|].
  now destruct (negb (status r =? 200)%Z).
Qed.

(** *** A fetched value that is not a list *)

Lemma rewrite_server_not_dict l h :
  is_dict (deref h l) = false ->
  exists e, rewrite_server py_repr l h = (Err e, h).
Proof.
  intros Hnot. destruct (rewrite_server py_repr l h) as [r h'] eqn:Hrun.
  destruct (rewrite_server_inv _ _ _ _ _ Hrun)
    as [[[e ->] ->]|(d & _ & _ & Hd & _)]; [eauto|].
  rewrite Hd in Hnot. discriminate.
Qed.

Lemma py_getitem_extends o i h r h' :
  py_getitem o i h = (r, h') -> exists ext, h' = (h ++ ext)%list.
Proof.
  unfold py_getitem. intros H.
  assert (Hsame : h' = h -> exists ext, h' = (h ++ ext)%list)
    by (intros ->; exists []; now rewrite app_nil_r).
  destruct o as [| | | |s|refs|d]; try (injection H as _ <-; auto).
  - destruct (seq_index _ i) as [j|]; [|injection H as _ <-; auto].
    destruct (str_at s j) as [c|]; injection H as _ <-; eauto.
  - destruct (seq_index _ i) as [j|]; [|injection H as _ <-; auto].
    destruct (refs !! j); injection H as _ <-; auto.
Qed.

Lemma comprehension_extends o idxs h r h' :
  comprehension (py_getitem o) idxs h = (r, h') ->
  exists ext, h' = (h ++ ext)%list.
Proof.
  revert h r h'. induction idxs as [|i idxs IH]; intros h r h'.
  - intros [= <- <-]. exists []. now rewrite app_nil_r.
  - cbn [comprehension]. unfold bind at 1.
    destruct (py_getitem o i h) as [[l|e] h1] eqn:Hget.
    + apply py_getitem_extends in Hget as [ext1 ->]. unfold bind.
      destruct (comprehension _ idxs _) as [[ls|e] h2] eqn:Hrest;
        apply IH in Hrest as [ext2 ->]; intros [= <- <-];
        exists (ext1 ++ ext2)%list; now rewrite app_assoc.
    + apply py_getitem_extends in Hget as [ext1 ->]. intros [= <- <-]. eauto.
Qed.

Lemma comprehension_cons {A B} (f : A -> M B) x xs h :
  comprehension f (x :: xs) h =
  match f x h with
  | (Ok y, h1) =>
      match comprehension f xs h1 with
      | (Ok ys, h2) => (Ok (y :: ys), h2)
      | (Err e, h2) => (Err e, h2)
      end
  | (Err e, h1) => (Err e, h1)
  end.
Proof.
  cbn [comprehension]. unfold bind, ret.
  destruct (f x h) as [[y|e] h1]; [|reflexivity].
  now destruct (comprehension f xs h1) as [[ys|e] h2].
Qed.

Lemma for_each_cons {A} (x : A) xs (body : A -> M unit) h :
  for_each (x :: xs) body h =
  match body x h with
  | (Ok _, h1) => for_each xs body h1
  | (Err e, h1) => (Err e, h1)
  end.
Proof. reflexivity. Qed.

Lemma create_sample_data_unfold data k h :
  create_sample_data data k h =
  match py_len data with
  | Err e => (Err e, h)
  | Ok n =>
      if Z.leb n k then (Ok data, h)
      else if Z.eqb k 0 then (Err ZeroDivisionError, h)
      else match comprehension (py_getitem data)
                   (map (fun i => i * (n / k)) (py_range k)) h with
           | (Err e, h1) => (Err e, h1)
           | (Ok sample, h1) =>
               match for_each sample (rewrite_server py_repr) h1 with
               | (Ok _, h2) => (Ok (OList sample), h2)
               | (Err e, h2) => (Err e, h2)
               end
           end
  end.
Proof.
  unfold create_sample_data, bind, lift, ret, py_floordiv.
  destruct (py_len data) as [n|e]; [|reflexivity].
  destruct (Z.leb n k); [reflexivity|].
  destruct (Z.eqb k 0); [reflexivity|].
  destruct (comprehension _ _ h) as [[sample|e] h1]; reflexivity.
Qed.

Lemma py_range_pos k :
  1 <= k -> py_range k = 0 :: map Z.of_nat (seq 1 (Z.to_nat k - 1)).
Proof.
  intros Hk. unfold py_range.
  replace (Z.to_nat k) with (S (Z.to_nat k - 1)) at 1 by lia. reflexivity.
Qed.

(** Sampling from a string or a mapping never yields a non-empty list:
    the first element taken is a character, which has no ['name'], or the
    integer subscript is not a key. *)
Lemma create_sample_data_not_list data k h sample h' :
  (forall refs, data <> OList refs) ->
  create_sample_data data k h = (Ok (OList sample), h') -> sample = [].
Proof.
  intros Hnot. rewrite create_sample_data_unfold.
  destruct data as [| | | |s|refs|d]; cbn [py_len]; try discriminate.
  - destruct (Z.leb_spec (Z.of_nat (String.length s)) k) as [|Hlt];
      [discriminate|].
    destruct (Z.eqb_spec k 0) as [|Hne]; [discriminate|].
    destruct (Z.le_gt_cases 1 k) as [Hpos|Hneg].
    + rewrite py_range_pos by exact Hpos. cbn [map]. rewrite comprehension_cons.
      rewrite Z.mul_0_l. unfold py_getitem at 1.
      change 0 with (Z.of_nat 0) at 1.
      rewrite seq_index_nat by lia.
      destruct s as [|c s]; [cbn in Hlt; lia|]. cbn [str_at String.get].
      destruct (comprehension _ _ _) as [[ys|e] h2] eqn:Hrest; [|discriminate].
      apply comprehension_extends in Hrest as [ext ->].
      rewrite for_each_cons.
      destruct (rewrite_server_not_dict (length h)
                  ((h ++ [PStr (String c EmptyString)]) ++ ext)) as [e He].
      { unfold deref. rewrite <- app_assoc. cbn [app].
        now rewrite list_lookup_middle by reflexivity. }
      rewrite He. discriminate.
    + unfold py_range. replace (Z.to_nat k) with 0%nat by lia.
      now intros [= <- _].
  - now destruct (Hnot refs).
  - destruct (Z.leb_spec (Z.of_nat (size d)) k) as [|Hlt]; [discriminate|].
    destruct (Z.eqb_spec k 0) as [|Hne]; [discriminate|].
    destruct (Z.le_gt_cases 1 k) as [Hpos|Hneg].
    + rewrite py_range_pos by exact Hpos. cbn [map]. rewrite comprehension_cons.
      discriminate.
    + unfold py_range. replace (Z.to_nat k) with 0%nat by lia.
      now intros [= <- _].
Qed.

(** *** The closing report *)

Lemma print_names_ok w (servers : list pyval) :
  Forall (fun v => exists x, py_getitem_str v "name" = Ok x /\
                             stdout_encodes w (py_format py_repr x) = true)
         servers ->
  print_names py_repr w servers = Ok tt.
Proof.
  induction 1 as [|v servers (x & Hx & Hprint) _ IH]; [reflexivity|].
  cbn [print_names]. rewrite Hx. unfold py_print. now rewrite Hprint.
Qed.

(** On servers that carry a name, the loop of the report fails only at a
    name that standard output cannot encode. *)
Lemma print_names_named w (servers : list pyval) :
  Forall (fun v => has_required_fields v = true) servers ->
  is_ok (print_names py_repr w servers)
  = forallb (fun v => stdout_encodes w (name_text py_repr v)) servers.
Proof.
  induction 1 as [|v servers Hv _ IH]; [reflexivity|].
  destruct v as [| | | | | |d]; try discriminate.
  cbn [print_names py_getitem_str forallb name_text].
  cbn [has_required_fields] in Hv.
  destruct (d !! "name") as [x|]; [|discriminate].
  unfold py_print. destruct (stdout_encodes w _); [exact IH|reflexivity].
Qed.

(** For two lists and a file that exists, the report is the print of the
    output path followed by the loop over the first five servers. *)
Lemma print_summary_list w h full sample output_file (fs : disk) :
  is_Some (fs !! output_file) ->
  print_summary py_repr w h (OList full) (OList sample) output_file fs
  = if stdout_encodes w output_file
    then print_names py_repr w (map (deref h) (take 5 sample))
    else Err UnicodeEncodeError.
Proof.
  intros [c Hc]. unfold print_summary, py_print.
  destruct (stdout_encodes w output_file); [|reflexivity].
  cbn [py_len first_five]. now rewrite Hc.
Qed.

(** *** The exit status and the stages *)

(** Whatever the input, the status is 1 as soon as a stage fails, and a
    status of 0 means that none did. *)
Lemma main_status_stages (w : world) (argv : list string) (fs : disk) :
  (first_failure w argv fs <> None -> (main w argv fs).1 = 1) /\
  ((main w argv fs).1 = 0 -> first_failure w argv fs = None).
Proof.
  unfold first_failure, main.
  destruct (warning_raises py_int w argv);
    [cbn; split; intros; congruence|].
  destruct (fetch_seed_data w SEED_DATA_URL) as [[h full_data]|e];
    [|cbn; split; intros; congruence].
  destruct (create_sample_data full_data _ h) as [[sample_data|e] h'];
    [|cbn; split; intros; congruence].
  destruct (save_sample_data w h' sample_data _ fs) as [[[]|e] fs'];
    [|cbn; split; intros; congruence].
  destruct (validate_sample_data fs' _);
    [|cbn; split; intros; congruence].
  split; [congruence|reflexivity].
Qed.

(** A size argument that leads to the unguarded warning is replaced by
    the default. *)
Lemma warning_raises_default (w : world) (argv : list string) :
  warning_raises py_int w argv = true -> parse_sample_size py_int argv = 10.
Proof.
  unfold warning_raises, parse_sample_size.
  destruct (argv !! 2%nat) as [arg|]; [|discriminate].
  now destruct (py_int arg).
Qed.

End PipelineFacts.

(** C7: where the code departs from the claim.  The seed document holds
    one complete record whose name ends in a lone surrogate.  Fetching,
    sampling, writing and validation all succeed and the output file
    holds the record; the closing report, which runs inside the same
    [try], raises when it prints the name, and the handler exits with
    status 1.  The same status follows a seed document
    [["name description version"]], which the validator accepts and the
    report then subscripts with ['name']. *)
Theorem main_exit_code :
  first_failure demo_repr demo_int surrogate_world short_argv ∅ = None /\
  main demo_repr demo_int surrogate_world short_argv ∅
  = (1, {[ "out.json" := JsonText (PList surrogate_records) ]}) /\
  first_failure demo_repr demo_int strings_world short_argv ∅ = None /\
  main demo_repr demo_int strings_world short_argv ∅
  = (1, {[ "out.json" := JsonText (PList [PStr "name description version"]) ]}).
Proof. repeat split; vm_compute; reflexivity. Qed.

(** ** The entry point on the sample data *)

Lemma main_malformed_body_witness :
  let fs0 : disk := {[ "out.json" := JsonText (PList []) ]} in
  exists r,
    urlopen malformed_world SEED_DATA_URL = Responds r /\
    body r = Malformed "<html>not json</html>" /\
    main demo_repr demo_int malformed_world demo_argv fs0 = (1, fs0).
Proof.
  intros fs0. eexists. split; [reflexivity|]. split; [reflexivity|].
  eapply (main_malformed_body demo_repr demo_int malformed_world demo_argv fs0);
    reflexivity.
Defined.

(** * Further properties of the script *)

(** ** The sampler: shape of the rewritten records *)

Ltac loop_turn H :=
  apply for_each_cons_inv in H;
  destruct H as (?r1 & ?h1 & ?Hstep & [[? ?Hrest]|(?e & ? & ? & ?)]);
  try discriminate; subst.

Section SamplerMore.

Variable py_repr : pyval -> string.

Local Abbreviation py_format := (py_format py_repr).
Local Abbreviation rewrite_record := (rewrite_record py_repr).
Local Abbreviation rewrite_server := (rewrite_server py_repr).
Local Abbreviation create_sample_data := (create_sample_data py_repr).

Lemma rewrite_server_rewritten l h h' :
  rewrite_server l h = (Ok tt, h') -> is_rewritten h' l = true.
Proof.
  intros H. destruct (rewrite_server_inv _ _ _ _ _ H)
    as [[[e [=]] _]|(d & v & np & Hd & _ & _ & _ & ->)].
  unfold is_rewritten, has_anon_name, has_demo_description, has_truthy_version,
    field.
  rewrite deref_insert_eq by eauto using deref_dict_lt.
  rewrite rewrite_record_name, rewrite_record_description, rewrite_record_version.
  rewrite !prefix_app. cbn [andb].
  destruct (d !! "version") as [ver|]; [|reflexivity].
  destruct (py_truthy ver) eqn:Hver; [exact Hver | reflexivity].
Qed.

Lemma rewrite_server_keeps_rewritten l h r h' l' :
  rewrite_server l h = (r, h') ->
  is_rewritten h l' = true -> is_rewritten h' l' = true.
Proof.
  intros H Hl'. destruct (decide (l' = l)) as [->|Hne].
  - destruct r as [[]|e]; [eauto using rewrite_server_rewritten|].
    destruct (rewrite_server_inv _ _ _ _ _ H)
      as [[_ ->]|(d & v & np & _ & _ & _ & [=] & _)]. exact Hl'.
  - unfold is_rewritten, has_anon_name, has_demo_description,
      has_truthy_version, field, deref in *.
    now rewrite (rewrite_server_elsewhere _ _ _ _ _ _ H Hne).
Qed.

Lemma for_each_keeps_rewritten ls h r h' l' :
  for_each ls rewrite_server h = (r, h') ->
  is_rewritten h l' = true -> is_rewritten h' l' = true.
Proof.
  revert h. induction ls as [|l ls IH]; intros h H Hl'.
  - now injection H as <- <-.
  - loop_turn H.
    + eapply IH; [exact Hrest|]. eauto using rewrite_server_keeps_rewritten.
    + eauto using rewrite_server_keeps_rewritten.
Qed.

Lemma for_each_rewritten ls h h' l :
  for_each ls rewrite_server h = (Ok tt, h') -> l ∈ ls ->
  is_rewritten h' l = true.
Proof.
  revert h. induction ls as [|l0 ls IH]; intros h H Hin.
  - now apply elem_of_nil in Hin.
  - loop_turn H.
    apply elem_of_cons in Hin as [->|Hin]; [|eauto].
    eapply for_each_keeps_rewritten; [exact Hrest|].
    eauto using rewrite_server_rewritten.
Qed.

(** On the rewriting branch every returned record has been through the
    loop body at least once, also when an object occurs several times. *)
Lemma create_sample_data_shape h full_data k sample h' :
  k < Z.of_nat (length full_data) ->
  create_sample_data (OList full_data) k h = (Ok (OList sample), h') ->
  forall l, l ∈ sample -> is_rewritten h' l = true.
Proof.
  intros Hlt Hcreate l Hl. rewrite create_sample_data_list in Hcreate.
  destruct (Z.leb_spec (Z.of_nat (length full_data)) k); [lia|].
  destruct (Z.eqb_spec k 0); [discriminate|].
  destruct (for_each _ _ _) as [[[]|e] h1] eqn:Hloop; [|discriminate].
  injection Hcreate as <- <-. eauto using for_each_rewritten.
Qed.

Lemma is_rewritten_fields h l :
  is_rewritten h l = true -> has_required_fields (deref h l) = true.
Proof.
  unfold is_rewritten, has_anon_name, has_demo_description, has_truthy_version,
    field, has_required_fields.
  destruct (deref h l) as [| | | | | |d]; try discriminate.
  destruct (d !! "name"); [|discriminate].
  destruct (d !! "description"); [|intros H; now rewrite andb_false_r in H].
  destruct (d !! "version"); [|intros H; now rewrite andb_false_r in H].
  intros _. rewrite !bool_decide_eq_true_2 by eauto. reflexivity.
Qed.

(** X1. When the list has more than [k] records, every record of the
    returned sample has a description that starts with ["[DEMO] "]. *)
Theorem create_sample_data_demo
    (h : heap) (full_data : list loc) (k : Z) (sample : list loc) (h' : heap) :
  k < Z.of_nat (length full_data) ->
  create_sample_data (OList full_data) k h = (Ok (OList sample), h') ->
  forall l, l ∈ sample ->
    exists s, field h' l "description" = Some (PStr s) /\
              String.prefix DEMO_PREFIX s = true.
Proof.
  intros Hlt Hcreate l Hl.
  pose proof (create_sample_data_shape _ _ _ _ _ Hlt Hcreate l Hl) as Hshape.
  unfold is_rewritten in Hshape. rewrite !andb_true_iff in Hshape.
  destruct Hshape as [[_ Hdesc] _]. unfold has_demo_description in Hdesc.
  destruct (field h' l "description") as [[| | | |s| |]|]; try discriminate.
  eauto.
Qed.

(** X2. When the list has more than [k] records, every record of the
    returned sample has the three fields the validator requires, and its
    version is not empty or otherwise falsy. *)
Theorem create_sample_data_complete
    (h : heap) (full_data : list loc) (k : Z) (sample : list loc) (h' : heap) :
  k < Z.of_nat (length full_data) ->
  create_sample_data (OList full_data) k h = (Ok (OList sample), h') ->
  forall l, l ∈ sample ->
    has_required_fields (deref h' l) = true /\
    exists v, field h' l "version" = Some v /\ py_truthy v = true.
Proof.
  intros Hlt Hcreate l Hl.
  pose proof (create_sample_data_shape _ _ _ _ _ Hlt Hcreate l Hl) as Hshape.
  split; [now apply is_rewritten_fields|].
  unfold is_rewritten in Hshape. rewrite !andb_true_iff in Hshape.
  destruct Hshape as [_ Hver]. unfold has_truthy_version in Hver.
  destruct (field h' l "version") as [v|]; [eauto | discriminate].
Qed.

(** ** The sampler: which records are taken *)

(** X3. Whenever [create_sample_data] returns, the sample has
    [min(n, max(0, k))] records: never more than were asked for and never
    more than there are. *)
Theorem create_sample_data_size
    (h : heap) (full_data : list loc) (k : Z) (sample : list loc) (h' : heap) :
  create_sample_data (OList full_data) k h = (Ok (OList sample), h') ->
  Z.of_nat (length sample) = Z.min (Z.of_nat (length full_data)) (Z.max 0 k).
Proof.
  rewrite create_sample_data_list.
  destruct (Z.leb_spec (Z.of_nat (length full_data)) k) as [Hle|Hlt].
  { intros [= <- _]. lia. }
  destruct (Z.eqb_spec k 0) as [|Hne]; [discriminate|].
  destruct (for_each _ _ _) as [[[]|e] h1]; [|discriminate].
  intros [= <- _]. destruct (Z.le_gt_cases 1 k) as [Hpos|Hneg].
  - rewrite spread_length by lia. lia.
  - rewrite spread_nonpositive by lia. cbn [length]. lia.
Qed.

(** X4. Every object of the returned sample is an element of the input
    list, and a list of distinct objects gives a sample of distinct
    objects. *)
Theorem create_sample_data_drawn
    (h : heap) (full_data : list loc) (k : Z) (sample : list loc) (h' : heap) :
  create_sample_data (OList full_data) k h = (Ok (OList sample), h') ->
  (forall l, l ∈ sample -> l ∈ full_data) /\
  (NoDup full_data -> NoDup sample).
Proof.
  rewrite create_sample_data_list.
  destruct (Z.leb_spec (Z.of_nat (length full_data)) k) as [Hle|Hlt].
  { intros [= <- _]. auto. }
  destruct (Z.eqb_spec k 0) as [|Hne]; [discriminate|].
  destruct (for_each _ _ _) as [[[]|e] h1]; [|discriminate].
  intros [= <- _]. destruct (Z.le_gt_cases 1 k) as [Hpos|Hneg].
  - split.
    + intros l Hl. destruct (spread_elem _ _ _ (conj Hpos Hlt) Hl) as (i & _ & Hi).
      eauto using list_elem_of_lookup_2.
    + now apply spread_NoDup.
  - rewrite spread_nonpositive by lia. split.
    + intros l Hl. now apply elem_of_nil in Hl.
    + intros _. constructor.
Qed.

(** X5. On the rewriting branch ([1 <= k < n]) the last record of the
    list is never selected: every selected position is at most [n - 2],
    so in a list of distinct objects the last one is left untouched. *)
Theorem create_sample_data_skips_last
    (h : heap) (full_data : list loc) (k : Z) :
  let n := length full_data in
  1 <= k < Z.of_nat n ->
  (forall i, (i < Z.to_nat k)%nat -> (i * spread_step n k + 1 < n)%nat) /\
  (NoDup full_data ->
   forall r h' last,
     create_sample_data (OList full_data) k h = (r, h') ->
     full_data !! (n - 1)%nat = Some last ->
     h' !! last = h !! last).
Proof.
  intros n Hk. subst n.
  pose proof (spread_step_Z full_data k Hk) as HZ.
  pose proof (spread_step_pos full_data k Hk) as Hpos.
  pose proof (Z.mul_div_le (Z.of_nat (length full_data)) k ltac:(lia)) as Hle.
  assert (Hidx : forall i, (i < Z.to_nat k)%nat ->
            (i * spread_step (length full_data) k + 1 < length full_data)%nat).
  { intros i Hi.
    destruct (decide (spread_step (length full_data) k = 1%nat)) as [H1|H1].
    - rewrite H1. lia.
    - nia. }
  split; [exact Hidx|].
  intros Hnd r h' last Hcreate Hlast.
  destruct (create_sample_data_list_frame _ _ _ _ _ _ Hcreate) as (_ & _ & Hobj).
  apply Hobj. intros i Hi Hil.
  pose proof (NoDup_lookup _ _ _ _ Hnd Hlast Hil). specialize (Hidx i Hi). lia.
Qed.

(** ** The sampler: running the loop body again, and failing in it *)

Lemma local_part_anon (s : string) : local_part (ANON_PREFIX ++ s) = s.
Proof. reflexivity. Qed.

(** X6. Rewriting a record that is already under the anonymous namespace
    keeps its name, because the split drops the prefix again; it puts a
    second ["[DEMO] "] in front of the description and keeps a version
    that is set.  No other object changes. *)
Theorem rewrite_server_again
    (l : loc) (h : heap) (d : gmap string pyval) (s t : string) (v : pyval) :
  deref h l = PDict d ->
  d !! "name" = Some (PStr (ANON_PREFIX ++ s)) ->
  d !! "description" = Some (PStr t) ->
  d !! "version" = Some v -> py_truthy v = true ->
  exists h',
    rewrite_server l h = (Ok tt, h') /\
    field h' l "name" = Some (PStr (ANON_PREFIX ++ s)) /\
    field h' l "description" = Some (PStr (DEMO_PREFIX ++ t)) /\
    field h' l "version" = Some v /\
    forall l', l' <> l -> h' !! l' = h !! l'.
Proof.
  intros Hd Hname Hdesc Hver Htruthy.
  pose proof (rewrite_server_run py_repr _ _ _ _ Hd Hname) as Hrun.
  rewrite namespace_part_of_str, local_part_anon in Hrun.
  eexists. split; [exact Hrun|]. unfold field.
  rewrite deref_insert_eq by eauto using deref_dict_lt.
  rewrite rewrite_record_name, rewrite_record_description,
    rewrite_record_version, Hdesc, Hver, Htruthy.
  repeat split. intros l' Hne. now apply list_lookup_insert_ne.
Qed.

(** X7. Position 0 is always selected first.  If the object there is a
    mapping without a ['name'], [create_sample_data] raises [KeyError];
    if it is not a mapping at all, [TypeError].  Either way the store is
    as it was: nothing has been rewritten yet. *)
Theorem create_sample_data_first_fails
    (h : heap) (full_data : list loc) (k : Z) (l : loc) :
  1 <= k < Z.of_nat (length full_data) ->
  full_data !! 0%nat = Some l ->
  (forall d, deref h l = PDict d -> d !! "name" = None ->
     create_sample_data (OList full_data) k h = (Err KeyError, h)) /\
  (is_dict (deref h l) = false ->
     create_sample_data (OList full_data) k h = (Err TypeError, h)).
Proof.
  intros Hk Hfirst.
  assert (exists rest, spread full_data k = l :: rest) as [rest Hspread].
  { pose proof (spread_lookup full_data k Hk 0 ltac:(lia)) as H0.
    cbn [Nat.mul] in H0. rewrite Hfirst in H0.
    destruct (spread full_data k) as [|l0 rest]; [discriminate|].
    injection H0 as ->. eauto. }
  rewrite create_sample_data_between, Hspread, for_each_cons by exact Hk.
  unfold rewrite_server, bind, getitem. split.
  - intros d Hd Hname. rewrite Hd. cbn [py_getitem_str]. now rewrite Hname.
  - intros Hnot. destruct (deref h l); try discriminate; reflexivity.
Qed.

End SamplerMore.

(** ** The validator: what it accepts and what it reports *)

Lemma passes_checks_checked (i : nat) (server : pyval) :
  passes_checks server <-> check_fields i server required_fields = Ok tt.
Proof.
  rewrite check_fields_ok. unfold passes_checks, required_fields. split.
  - intros H. repeat split; apply H; cbn; auto.
  - intros (H1 & H2 & H3) key [<-|[<-|[<-|[]]]]; assumption.
Qed.

Lemma py_contains_str_error (key : string) (v : pyval) (e : exn) :
  py_contains_str key v = Err e -> e = TypeError.
Proof. destruct v; cbn; congruence. Qed.

Lemma check_fields_missing (i j : nat) (server : pyval) (fields : list string)
    (f : string) :
  check_fields i server fields = Err (MissingField j f) ->
  j = i /\ In f fields /\ py_contains_str f server = Ok false.
Proof.
  induction fields as [|g fields IH]; cbn [check_fields]; [discriminate|].
  destruct (py_contains_str g server) as [[]|e] eqn:Hg.
  - intros H. destruct (IH H) as (? & ? & ?). cbn. auto.
  - intros [= <- <-]. cbn. auto.
  - apply py_contains_str_error in Hg as ->. discriminate.
Qed.

Lemma check_servers_missing (i0 i : nat) (servers : list pyval) (f : string) :
  check_servers i0 servers = Err (MissingField i f) ->
  exists server,
    (i0 <= i)%nat /\ servers !! (i - i0)%nat = Some server /\
    In f required_fields /\ py_contains_str f server = Ok false /\
    Forall passes_checks (take (i - i0) servers).
Proof.
  revert i0. induction servers as [|v servers IH]; intros i0;
    cbn [check_servers]; [discriminate|].
  destruct (check_fields i0 v required_fields) as [[]|e] eqn:Hv.
  - intros H. destruct (IH _ H) as (server & Hle & Hlook & Hin & Hf & Hbefore).
    exists server. replace (i - i0)%nat with (S (i - S i0)) by lia.
    cbn [take]. repeat split; try assumption; [lia|].
    constructor; [|exact Hbefore]. now apply (passes_checks_checked i0).
  - intros [= ->]. apply check_fields_missing in Hv as (-> & Hin & Hf).
    exists v. rewrite Nat.sub_diag. cbn [take]. repeat split; auto.
Qed.

(** X8. The validator answers [True] exactly when the file exists, holds
    a JSON array that is not empty, and each element passes the three
    membership tests.  A missing or unreadable file, any other top-level
    value and an empty array all give [False]. *)
Theorem validate_sample_data_accepts (fs : disk) (sample_file : string) :
  validate_sample_data fs sample_file = true <->
  exists servers,
    fs !! sample_file = Some (JsonText (PList servers)) /\
    servers <> [] /\ Forall passes_checks servers.
Proof.
  unfold validate_sample_data. split.
  - destruct (validate_checks fs sample_file) as [n|e] eqn:Hchecks;
      [|discriminate].
    intros _. apply validate_checks_inv in Hchecks
      as (servers & Hfile & Hne & Hall & _).
    exists servers. repeat split; try assumption.
    apply check_servers_ok in Hall. eapply Forall_impl; [exact Hall|].
    intros v Hv. now apply (passes_checks_checked 0).
  - intros (servers & Hfile & Hne & Hall).
    rewrite (validate_checks_intro _ _ servers); try assumption; [reflexivity|].
    apply check_servers_ok. eapply Forall_impl; [exact Hall|].
    intros v Hv. now apply passes_checks_checked.
Qed.

(** X9. When the validator reports [Server i missing required field: f],
    the file holds an array whose element at position [i] lacks the
    required field [f], and every element before it passed all three
    tests: the report names the first server at fault. *)
Theorem validate_checks_reports_first
    (fs : disk) (sample_file : string) (i : nat) (f : string) :
  validate_checks fs sample_file = Err (MissingField i f) ->
  exists servers server,
    fs !! sample_file = Some (JsonText (PList servers)) /\
    servers !! i = Some server /\
    In f required_fields /\ py_contains_str f server = Ok false /\
    Forall passes_checks (take i servers).
Proof.
  unfold validate_checks, read_json.
  destruct (fs !! sample_file) as [[v|raw|]|]; try discriminate.
  cbn [json_loads]. destruct v as [| | | | |servers|]; try discriminate.
  destruct (Nat.eqb (length servers) 0); [discriminate|].
  destruct (check_servers 0 servers) as [[]|e] eqn:Hall; [discriminate|].
  intros [= ->].
  apply check_servers_missing in Hall as (server & _ & Hlook & Hin & Hf & Hbefore).
  rewrite Nat.sub_0_r in Hlook, Hbefore. eauto 10.
Qed.

(** ** The fetcher: when it returns *)

(** X10. [fetch_seed_data] returns exactly when the server answers with
    status 200 and a body that is JSON whose top-level value has a
    length (an array, a string or an object).  A transport error, any
    other status, a body that is not UTF-8 or not JSON, and a top-level
    [null], number or boolean all raise. *)
Theorem fetch_seed_data_returns
    (w : world) (url : string) (h : heap) (data : pyobj) :
  fetch_seed_data w url = Ok (h, data) <->
  exists r v,
    urlopen w url = Responds r /\ status r = 200 /\
    body r = JsonText v /\ is_sized v = true /\ load v = (h, data).
Proof.
  unfold fetch_seed_data. split.
  - destruct (urlopen w url) as [e|r]; [discriminate|].
    destruct (Z.eqb_spec (status r) 200) as [Hstatus|_]; [|discriminate].
    cbn [negb]. destruct (body r) as [v|raw|] eqn:Hbody; try discriminate.
    cbn [json_loads]. destruct (load v) as [h0 data0] eqn:Hload.
    destruct (py_len data0) as [n|e] eqn:Hlen; [|discriminate].
    intros [= <- <-]. exists r, v. repeat split; try assumption.
    destruct v; cbn in Hload; injection Hload as <- <-;
      try discriminate; reflexivity.
  - intros (r & v & -> & -> & -> & Hsized & Hload). cbn [negb Z.eqb json_loads].
    rewrite Hload.
    destruct v; try discriminate; cbn in Hload; injection Hload as <- <-;
      reflexivity.
Qed.

(** ** The whole run *)

Lemma snapshot_loaded (items : list pyval) :
  map (deref items) (seq 0 (length items)) = items.
Proof.
  induction items as [|v items IH]; [reflexivity|].
  cbn [length seq map]. rewrite <- List.seq_shift, List.map_map.
  f_equal. exact IH.
Qed.

Lemma is_record_loaded (items : list pyval) (l : loc) (v : pyval) :
  items !! l = Some v -> is_record_value v = true -> is_record items l = true.
Proof. intros Hl Hv. unfold is_record, deref. now rewrite Hl. Qed.

Lemma is_record_value_dict (v : pyval) :
  is_record_value v = true -> is_dict v = true.
Proof. now destruct v. Qed.

Lemma fetch_array (w : world) (url : string) (r : response) (items : list pyval) :
  urlopen w url = Responds r -> status r = 200 ->
  body r = JsonText (PList items) ->
  fetch_seed_data w url = Ok (items, OList (seq 0 (length items))).
Proof. intros Hopen Hstatus Hbody. unfold fetch_seed_data.
  now rewrite Hopen, Hstatus, Hbody. Qed.

Lemma save_sample_data_elsewhere w h sample_data output_file (fs : disk) p :
  p <> output_file ->
  (save_sample_data w h sample_data output_file fs).2 !! p = fs !! p.
Proof.
  intros Hne. unfold save_sample_data.
  destruct (fault_at w output_file) as [[| |partial]|]; cbn [snd];
    try reflexivity.
  - now apply lookup_insert_ne.
  - destruct (py_len sample_data); cbn [snd]; now apply lookup_insert_ne.
Qed.

(** A written sample whose records all carry the required fields. *)
Lemma complete_sample_validates w h sample output_file (fs : disk) :
  fault_at w output_file = None -> sample <> [] ->
  (forall l, l ∈ sample -> has_required_fields (deref h l) = true) ->
  save_sample_data w h (OList sample) output_file fs
  = (Ok tt, <[output_file := JsonText (PList (map (deref h) sample))]> fs) /\
  validate_checks (<[output_file := JsonText (PList (map (deref h) sample))]> fs)
    output_file = Ok (length sample).
Proof.
  intros Hfault Hne Hall. split.
  - unfold save_sample_data. now rewrite Hfault.
  - rewrite <- (length_map (deref h) sample). apply validate_checks_intro.
    + apply lookup_insert_eq.
    + destruct sample; [congruence | discriminate].
    + apply check_servers_ok, Forall_forall. intros v Hv.
      apply list_elem_of_In, in_map_iff in Hv as (l & <- & Hl).
      apply has_required_fields_checked, Hall. now apply list_elem_of_In.
Qed.

Lemma check_dicts_decided (i : nat) (items : list pyval) :
  Forall (fun v => is_dict v = true) items ->
  is_ok (check_servers i items) = forallb has_required_fields items.
Proof.
  intros Hall. revert i. induction Hall as [|v items Hv _ IH]; intros i;
    [reflexivity|].
  cbn [check_servers forallb]. destruct v as [| | | | | |d]; try discriminate.
  unfold required_fields. cbn [check_fields py_contains_str has_required_fields].
  destruct (bool_decide (is_Some (d !! "name"))); [|reflexivity].
  destruct (bool_decide (is_Some (d !! "description"))); [|reflexivity].
  destruct (bool_decide (is_Some (d !! "version"))); [|reflexivity].
  cbn [andb]. apply IH.
Qed.

Lemma validate_dicts (fs : disk) (path : string) (items : list pyval) :
  Forall (fun v => is_dict v = true) items ->
  validate_sample_data (<[path := JsonText (PList items)]> fs) path
  = negb (Nat.eqb (length items) 0) && forallb has_required_fields items.
Proof.
  intros Hall. unfold validate_sample_data, validate_checks, read_json.
  rewrite lookup_insert_eq. cbn [json_loads].
  destruct (Nat.eqb (length items) 0); [reflexivity|]. cbn [negb andb].
  rewrite <- (check_dicts_decided 0 items Hall).
  now destruct (check_servers 0 items).
Qed.

Section MainMore.

Variable py_repr : pyval -> string.
Variable py_int : string -> option Z.

Local Abbreviation create_sample_data := (create_sample_data py_repr).
Local Abbreviation main := (main py_repr py_int).
Local Abbreviation first_failure := (first_failure py_repr py_int).
Local Abbreviation parse_sample_size := (parse_sample_size py_int).

(** X11. Whatever its outcome, a run changes no file other than the
    output file: every other path holds after the run what it held
    before. *)
Theorem main_touches_only_output
    (w : world) (argv : list string) (fs : disk) (p : string) :
  p <> parse_output_file w argv ->
  (main w argv fs).2 !! p = fs !! p.
Proof.
  intros Hp. unfold main. cbv zeta.
  destruct (warning_raises py_int w argv); [reflexivity|].
  destruct (fetch_seed_data w SEED_DATA_URL) as [[h full_data]|e];
    [|reflexivity].
  destruct (create_sample_data full_data _ h) as [[sample_data|e] h'];
    [|reflexivity].
  pose proof (save_sample_data_elsewhere w h' sample_data
                (parse_output_file w argv) fs p Hp) as Hframe.
  destruct (save_sample_data w h' sample_data _ fs) as [[[]|e] fs'];
    cbn [snd] in Hframe; [|exact Hframe].
  destruct (validate_sample_data fs' _); [|exact Hframe].
  destruct (print_summary _ _ _ _ _ _ _); exact Hframe.
Qed.

(** X12. Nothing is written until the sample exists: if the disk after
    the run differs from the disk before, fetching and sampling had both
    succeeded. *)
Theorem main_writes_after_sampling (w : world) (argv : list string) (fs : disk) :
  (main w argv fs).2 <> fs ->
  exists h full_data sample_data h',
    fetch_seed_data w SEED_DATA_URL = Ok (h, full_data) /\
    create_sample_data full_data (parse_sample_size argv) h
    = (Ok sample_data, h').
Proof.
  unfold main. cbv zeta.
  destruct (warning_raises py_int w argv); [cbn; congruence|].
  destruct (fetch_seed_data w SEED_DATA_URL) as [[h full_data]|e];
    [|cbn; congruence].
  destruct (create_sample_data full_data _ h) as [[sample_data|e] h'] eqn:Hcreate;
    [|cbn; congruence].
  intros _. exists h, full_data, sample_data, h'. split; [reflexivity|exact Hcreate].
Qed.

(** X13. An exit status of 0 means that the output file now holds a JSON
    array that is not empty, that nothing else on the disk changed, and
    that the validator accepts the file. *)
Theorem main_success_file
    (w : world) (argv : list string) (fs fs' : disk) :
  main w argv fs = (0, fs') ->
  validate_sample_data fs' (parse_output_file w argv) = true /\
  exists servers,
    fs' = <[parse_output_file w argv := JsonText (PList servers)]> fs /\
    servers <> [].
Proof.
  unfold main. cbv zeta.
  destruct (warning_raises py_int w argv); [discriminate|].
  destruct (fetch_seed_data w SEED_DATA_URL) as [[h full_data]|e];
    [|discriminate].
  destruct (create_sample_data full_data _ h) as [[sample_data|e] h'];
    [|discriminate].
  destruct (save_sample_data w h' sample_data _ fs) as [[[]|e] fs1] eqn:Hsave;
    [|discriminate].
  destruct (validate_sample_data fs1 _) eqn:Hval; [|discriminate].
  destruct (print_summary _ _ _ _ _ _ _); [|discriminate].
  intros [= <-]. split; [exact Hval|].
  apply save_sample_data_inv in Hsave as [_ ->].
  unfold validate_sample_data in Hval.
  destruct (validate_checks _ _) as [n|e] eqn:Hchecks; [|discriminate].
  apply validate_checks_inv in Hchecks as (servers & Hfile & Hne & _).
  rewrite lookup_insert_eq in Hfile. injection Hfile as ->. eauto.
Qed.

(** X14. A file that fails validation is left where it was written: when
    validation is the first stage to fail, the exit status is 1 and the
    output file holds the rejected document. *)
Theorem main_keeps_invalid_file (w : world) (argv : list string) (fs : disk) :
  first_failure w argv fs = Some Validating ->
  (main w argv fs).1 = 1 /\
  validate_sample_data (main w argv fs).2 (parse_output_file w argv) = false /\
  exists doc,
    (main w argv fs).2 = <[parse_output_file w argv := JsonText doc]> fs.
Proof.
  unfold first_failure, main. cbv zeta.
  destruct (warning_raises py_int w argv); [discriminate|].
  destruct (fetch_seed_data w SEED_DATA_URL) as [[h full_data]|e];
    [|discriminate].
  destruct (create_sample_data full_data _ h) as [[sample_data|e] h'];
    [|discriminate].
  destruct (save_sample_data w h' sample_data _ fs) as [[[]|e] fs1] eqn:Hsave;
    [|discriminate].
  destruct (validate_sample_data fs1 _) eqn:Hval; [discriminate|].
  intros _. cbn [fst snd]. split; [reflexivity|]. split; [exact Hval|].
  apply save_sample_data_inv in Hsave as [_ ->]. eauto.
Qed.

(** X15. End to end, on the rewriting branch: when the server answers 200
    with an array of [n] registry records, the requested size [k]
    satisfies [1 <= k < n], the disk raises no fault and standard output
    can encode what the run prints of its input (the size argument where
    the warning reports it, the output path, the names the sampler
    gives), the process exits with 0 and the output file holds exactly
    [k] records, each with the three required fields. *)
Theorem main_samples
    (w : world) (argv : list string) (fs : disk) (r : response)
    (items : list pyval) :
  urlopen w SEED_DATA_URL = Responds r -> status r = 200 ->
  body r = JsonText (PList items) ->
  Forall (fun v => is_record_value v = true) items ->
  1 <= parse_sample_size argv < Z.of_nat (length items) ->
  fault_at w (parse_output_file w argv) = None ->
  warning_raises py_int w argv = false ->
  stdout_encodes w (parse_output_file w argv) = true ->
  Forall (fun v => stdout_encodes w (anon_name v) = true) items ->
  exists servers,
    main w argv fs
    = (0, <[parse_output_file w argv := JsonText (PList servers)]> fs) /\
    length servers = Z.to_nat (parse_sample_size argv) /\
    Forall (fun v => has_required_fields v = true) servers.
Proof.
  intros Hopen Hstatus Hbody Hrecs Hk Hfault Hwarn Hout Hnames.
  set (out := parse_output_file w argv) in *.
  set (k := parse_sample_size argv) in *.
  set (refs := seq 0 (length items)).
  assert (Hlen : length refs = length items) by apply length_seq.
  assert (Hk' : 1 <= k < Z.of_nat (length refs)) by (rewrite Hlen; exact Hk).
  pose proof (fetch_array _ _ _ _ Hopen Hstatus Hbody) as Hfetch. fold refs in Hfetch.
  destruct (spread_records py_repr refs k items Hk') as [h' Hloop].
  { intros i l Hi Hl. apply lookup_seq in Hl as [-> Hlt]. cbn [Nat.add] in *.
    destruct (lookup_lt_is_Some_2 items _ Hlt) as [v Hv].
    apply (is_record_loaded _ _ v Hv).
    rewrite Forall_forall in Hrecs. eauto using list_elem_of_lookup_2. }
  assert (Hcreate : create_sample_data (OList refs) k items
                    = (Ok (OList (spread refs k)), h'))
    by now rewrite create_sample_data_between, Hloop.
  assert (Hfields : forall l, l ∈ spread refs k ->
                      has_required_fields (deref h' l) = true).
  { intros l Hl. apply is_rewritten_fields.
    eapply create_sample_data_shape; [|exact Hcreate|exact Hl]. lia. }
  assert (Hne : spread refs k <> []).
  { intros Hnil. pose proof (spread_length refs k Hk') as Hs.
    rewrite Hnil in Hs. cbn in Hs. lia. }
  destruct (complete_sample_validates w h' (spread refs k) out fs Hfault Hne Hfields)
    as [Hsave Hchecks].
  assert (Hval : validate_sample_data
            (<[out := JsonText (PList (map (deref h') (spread refs k)))]> fs) out
            = true)
    by (unfold validate_sample_data; now rewrite Hchecks).
  assert (Hreport : print_summary py_repr w h' (OList refs) (OList (spread refs k))
                      out
                      (<[out := JsonText (PList (map (deref h') (spread refs k)))]> fs)
                    = Ok tt).
  { rewrite print_summary_list by (rewrite lookup_insert_eq; eauto).
    rewrite Hout. apply print_names_ok, Forall_forall. intros x Hx.
    apply list_elem_of_In, in_map_iff in Hx as (l & <- & Hl).
    apply list_elem_of_In in Hl.
    assert (Hl' : l ∈ spread refs k) by (eapply subseteq_take; exact Hl).
    assert (Hnd : NoDup (spread refs k))
      by (apply spread_NoDup; [exact Hk'|apply NoDup_seq]).
    destruct (for_each_once py_repr _ _ _ _ Hloop Hnd Hl')
      as (d & v & np & Hd & Hname & Hnp & ->).
    destruct (spread_elem _ _ _ Hk' Hl') as (i & _ & Hi).
    apply lookup_seq in Hi as [Hil Hlt]. cbn [Nat.add] in Hil.
    destruct (lookup_lt_is_Some_2 items l) as [x Hx]; [lia|].
    pose proof (Forall_lookup_1 _ _ _ _ Hrecs Hx) as Hrec.
    pose proof (Forall_lookup_1 _ _ _ _ Hnames Hx) as Hprint.
    unfold deref in Hd. rewrite Hx in Hd. cbn in Hd. subst x.
    cbn [is_record_value anon_name] in Hrec, Hprint. rewrite Hname in Hrec, Hprint.
    destruct v as [| | | |s| |]; try discriminate.
    rewrite namespace_part_of_str in Hnp. injection Hnp as <-.
    eexists. split; [cbn [py_getitem_str]; now rewrite rewrite_record_name|].
    exact Hprint. }
  exists (map (deref h') (spread refs k)). split; [|split].
  - unfold main. cbv zeta. fold out k.
    now rewrite Hwarn, Hfetch, Hcreate, Hsave, Hval, Hreport.
  - now rewrite length_map, spread_length.
  - apply Forall_forall. intros v Hv.
    apply list_elem_of_In, in_map_iff in Hv as (l & <- & Hl).
    apply Hfields. now apply list_elem_of_In.
Qed.

(** X16. End to end, on the verbatim branch: when the server answers 200
    with an array of at most [k] mappings, the disk raises no fault and
    the warning about the size argument, if there is one, can be printed,
    the array is written as it came.  The exit status is 0 exactly when
    the array is not empty, every mapping already has name, description
    and version, and standard output can encode the output path and the
    first five names; otherwise it is 1, with the file written all the
    same. *)
Theorem main_verbatim
    (w : world) (argv : list string) (fs : disk) (r : response)
    (items : list pyval) :
  urlopen w SEED_DATA_URL = Responds r -> status r = 200 ->
  body r = JsonText (PList items) ->
  Forall (fun v => is_dict v = true) items ->
  Z.of_nat (length items) <= parse_sample_size argv ->
  fault_at w (parse_output_file w argv) = None ->
  warning_raises py_int w argv = false ->
  main w argv fs
  = (if negb (Nat.eqb (length items) 0) && forallb has_required_fields items
        && report_prints py_repr w (parse_output_file w argv) items
     then 0 else 1,
     <[parse_output_file w argv := JsonText (PList items)]> fs).
Proof.
  intros Hopen Hstatus Hbody Hdicts Hk Hfault Hwarn.
  set (out := parse_output_file w argv) in *.
  set (k := parse_sample_size argv) in *.
  set (refs := seq 0 (length items)).
  assert (Hlen : length refs = length items) by apply length_seq.
  pose proof (fetch_array _ _ _ _ Hopen Hstatus Hbody) as Hfetch. fold refs in Hfetch.
  assert (Hcreate : create_sample_data (OList refs) k items
                    = (Ok (OList refs), items)).
  { rewrite create_sample_data_list, Hlen.
    destruct (Z.leb_spec (Z.of_nat (length items)) k); [reflexivity|lia]. }
  assert (Hsave : save_sample_data w items (OList refs) out fs
                  = (Ok tt, <[out := JsonText (PList items)]> fs)).
  { unfold save_sample_data. rewrite Hfault. cbn [py_len snapshot].
    unfold refs. now rewrite snapshot_loaded. }
  pose proof (validate_dicts fs out items Hdicts) as Hval.
  unfold main. cbv zeta. fold out k. rewrite Hwarn, Hfetch, Hcreate, Hsave.
  destruct (validate_sample_data _ out) eqn:Hv; rewrite <- Hval; [|reflexivity].
  symmetry in Hval.
  apply andb_true_iff in Hval as [_ Hall].
  rewrite print_summary_list by (rewrite lookup_insert_eq; eauto).
  unfold report_prints. cbn [andb].
  destruct (stdout_encodes w out); [|reflexivity]. cbn [andb].
  assert (Hfive : map (deref items) (take 5 refs) = take 5 items).
  { unfold refs. rewrite <- List.firstn_map. now rewrite snapshot_loaded. }
  rewrite Hfive, <- print_names_named.
  - now destruct (print_names py_repr w (take 5 items)).
  - apply Forall_forall. intros v Hv'. rewrite forallb_forall in Hall.
    apply Hall, list_elem_of_In. eapply subseteq_take. exact Hv'.
Qed.

(** X17. A body that is valid JSON but not an array never leads to
    success: whatever its top-level value, the exit status is 1. *)
Theorem main_rejects_non_array
    (w : world) (argv : list string) (fs : disk) (r : response) (v : pyval) :
  urlopen w SEED_DATA_URL = Responds r ->
  body r = JsonText v ->
  (forall items, v <> PList items) ->
  (main w argv fs).1 = 1.
Proof.
  intros Hopen Hbody Hnot. unfold main. cbv zeta.
  destruct (warning_raises py_int w argv); [reflexivity|].
  destruct (fetch_seed_data w SEED_DATA_URL) as [[h full_data]|e] eqn:Hfetch;
    [|reflexivity].
  destruct (create_sample_data full_data _ h) as [[sample_data|e] h'] eqn:Hcreate;
    [|reflexivity].
  destruct (save_sample_data w h' sample_data _ fs) as [[[]|e] fs1] eqn:Hsave;
    [|reflexivity].
  destruct (validate_sample_data fs1 _) eqn:Hval; [|reflexivity].
  exfalso.
  apply fetch_seed_data_inv in Hfetch as (r' & v' & Hopen' & Hbody' & Hload).
  rewrite Hopen in Hopen'. injection Hopen' as <-.
  rewrite Hbody in Hbody'. injection Hbody' as <-.
  apply save_sample_data_inv in Hsave as [_ ->].
  unfold validate_sample_data in Hval.
  destruct (validate_checks _ _) as [n|e] eqn:Hchecks; [|discriminate].
  apply validate_checks_inv in Hchecks as (servers & Hfile & Hne & _).
  rewrite lookup_insert_eq in Hfile. injection Hfile as Hsnap.
  destruct sample_data as [| | | | |sample|]; try discriminate.
  injection Hsnap as <-.
  apply create_sample_data_not_list in Hcreate as ->; [now apply Hne|].
  intros refs ->. destruct v; try discriminate. now apply (Hnot items).
Qed.

(** X18. A sample size that is not positive never leads to success.  For
    [k < 0] an empty array is written and then rejected by the validator;
    for [k = 0] on a non-empty array the division by zero ends the run
    before anything is written.  The exit status is 1 in both cases. *)
Theorem main_nonpositive_size
    (w : world) (argv : list string) (fs : disk) (r : response)
    (items : list pyval) :
  urlopen w SEED_DATA_URL = Responds r -> status r = 200 ->
  body r = JsonText (PList items) ->
  (parse_sample_size argv < 0 ->
   fault_at w (parse_output_file w argv) = None ->
   main w argv fs
   = (1, <[parse_output_file w argv := JsonText (PList [])]> fs)) /\
  (parse_sample_size argv = 0 -> items <> [] -> main w argv fs = (1, fs)).
Proof.
  intros Hopen Hstatus Hbody.
  pose proof (fetch_array _ _ _ _ Hopen Hstatus Hbody) as Hfetch.
  assert (Hlen : length (seq 0 (length items)) = length items) by apply length_seq.
  pose proof (warning_raises_default py_int w argv) as Hwarn.
  split.
  - intros Hneg Hfault. unfold main. cbv zeta.
    destruct (warning_raises py_int w argv); [specialize (Hwarn eq_refl); lia|].
    rewrite Hfetch.
    rewrite create_sample_data_list, Hlen.
    destruct (Z.leb_spec (Z.of_nat (length items)) (parse_sample_size argv));
      [lia|].
    destruct (Z.eqb_spec (parse_sample_size argv) 0); [lia|].
    rewrite spread_nonpositive by lia. cbn [for_each]. unfold ret.
    unfold save_sample_data. rewrite Hfault. cbn [py_len snapshot map].
    unfold validate_sample_data, validate_checks, read_json.
    rewrite lookup_insert_eq. reflexivity.
  - intros Hzero Hne. unfold main. cbv zeta.
    destruct (warning_raises py_int w argv); [reflexivity|].
    rewrite Hfetch.
    rewrite create_sample_data_list, Hlen, Hzero.
    destruct (Z.leb_spec (Z.of_nat (length items)) 0) as [Hle|]; [|reflexivity].
    destruct items; [congruence | cbn in Hle; lia].
Qed.

End MainMore.

(** ** The further properties on the sample data *)

Lemma create_sample_data_demo_witness :
  2 < Z.of_nat (length demo_list) /\
  exists s,
    field (create_sample_data demo_repr (OList demo_list) 2 demo_records).2
          0%nat "description" = Some (PStr s) /\
    String.prefix DEMO_PREFIX s = true.
Proof.
  assert (Hk : 2 < Z.of_nat (length demo_list)) by (cbn; lia).
  split; [exact Hk|].
  apply (create_sample_data_demo demo_repr demo_records demo_list 2
           [0; 2]%nat _ Hk).
  - vm_compute. reflexivity.
  - apply list_elem_of_In. cbn. auto.
Defined.

Lemma create_sample_data_complete_witness :
  2 < Z.of_nat (length demo_list) /\
  has_required_fields
    (deref (create_sample_data demo_repr (OList demo_list) 2 demo_records).2
           2%nat) = true.
Proof.
  assert (Hk : 2 < Z.of_nat (length demo_list)) by (cbn; lia).
  split; [exact Hk|].
  apply (create_sample_data_complete demo_repr demo_records demo_list 2
           [0; 2]%nat _ Hk).
  - vm_compute. reflexivity.
  - apply list_elem_of_In. cbn. auto.
Defined.

Lemma create_sample_data_size_witness :
  let run := create_sample_data demo_repr (OList demo_list) 2 demo_records in
  run = (Ok (OList [0; 2]%nat), run.2) /\
  Z.of_nat (length [0; 2]%nat) = Z.min (Z.of_nat (length demo_list)) (Z.max 0 2).
Proof.
  intros run.
  assert (Hrun : run = (Ok (OList [0; 2]%nat), run.2)) by (vm_compute; reflexivity).
  split; [exact Hrun|].
  exact (create_sample_data_size demo_repr demo_records demo_list 2 _ _ Hrun).
Defined.

Lemma create_sample_data_drawn_witness :
  let run := create_sample_data demo_repr (OList demo_list) 2 demo_records in
  run = (Ok (OList [0; 2]%nat), run.2) /\
  (forall l, l ∈ [0; 2]%nat -> l ∈ demo_list).
Proof.
  intros run.
  assert (Hrun : run = (Ok (OList [0; 2]%nat), run.2)) by (vm_compute; reflexivity).
  split; [exact Hrun|].
  exact (proj1 (create_sample_data_drawn demo_repr demo_records demo_list 2
                  _ _ Hrun)).
Defined.

Lemma create_sample_data_skips_last_witness :
  1 <= 2 < Z.of_nat (length demo_list) /\
  forall i, (i < Z.to_nat 2)%nat ->
            (i * spread_step (length demo_list) 2 + 1 < length demo_list)%nat.
Proof.
  assert (Hk : 1 <= 2 < Z.of_nat (length demo_list)) by (cbn; lia).
  split; [exact Hk|].
  exact (proj1 (create_sample_data_skips_last demo_repr demo_records demo_list 2
                  Hk)).
Defined.

Lemma rewrite_server_again_witness :
  deref [PDict rewritten_record] 0%nat = PDict rewritten_record /\
  exists h',
    rewrite_server demo_repr 0%nat [PDict rewritten_record] = (Ok tt, h') /\
    field h' 0%nat "name" = Some (PStr "io.modelcontextprotocol.anonymous/tool") /\
    field h' 0%nat "description" = Some (PStr "[DEMO] [DEMO] No description").
Proof.
  split; [reflexivity|].
  destruct (rewrite_server_again demo_repr 0%nat [PDict rewritten_record]
              rewritten_record "tool" "[DEMO] No description" (PStr "1.0.0"))
    as (h' & Hrun & Hname & Hdesc & _); try reflexivity.
  exists h'. auto.
Defined.

Lemma create_sample_data_first_fails_witness :
  1 <= 1 < Z.of_nat (length [0; 1]%nat) /\
  nameless_record !! "name" = None /\
  create_sample_data demo_repr (OList [0; 1]%nat) 1 nameless_records
  = (Err KeyError, nameless_records).
Proof.
  assert (Hk : 1 <= 1 < Z.of_nat (length [0; 1]%nat)) by (cbn; lia).
  split; [exact Hk|]. split; [reflexivity|].
  apply (proj1 (create_sample_data_first_fails demo_repr nameless_records
                  [0; 1]%nat 1 0%nat Hk eq_refl) nameless_record);
    reflexivity.
Defined.

Lemma validate_checks_reports_first_witness :
  let fs : disk := {[ "out.json" := JsonText (PList demo_records) ]} in
  validate_checks fs "out.json" = Err (MissingField 0 "description") /\
  exists (servers : list pyval) (server : pyval),
    servers !! 0%nat = Some server /\
    py_contains_str "description" server = Ok false.
Proof.
  intros fs.
  assert (H : validate_checks fs "out.json" = Err (MissingField 0 "description"))
    by (vm_compute; reflexivity).
  split; [exact H|].
  destruct (validate_checks_reports_first fs "out.json" 0 "description" H)
    as (servers & server & _ & Hlook & _ & Hf & _).
  exists servers, server. auto.
Defined.

Lemma main_touches_only_output_witness :
  let fs0 : disk := {[ "notes.txt" := Malformed "keep me" ]} in
  "notes.txt" <> parse_output_file demo_world demo_argv /\
  (main demo_repr demo_int demo_world demo_argv fs0).2 !! "notes.txt"
  = Some (Malformed "keep me").
Proof.
  intros fs0.
  assert (Hp : "notes.txt" <> parse_output_file demo_world demo_argv)
    by discriminate.
  split; [exact Hp|].
  exact (main_touches_only_output demo_repr demo_int demo_world demo_argv fs0
           "notes.txt" Hp).
Defined.

Lemma main_writes_after_sampling_witness :
  (main demo_repr demo_int demo_world demo_argv ∅).2 <> ∅ /\
  exists h full_data sample_data h',
    fetch_seed_data demo_world SEED_DATA_URL = Ok (h, full_data) /\
    create_sample_data demo_repr full_data
      (parse_sample_size demo_int demo_argv) h = (Ok sample_data, h').
Proof.
  assert (Hne : (main demo_repr demo_int demo_world demo_argv ∅).2 <> ∅).
  { intros Heq.
    assert (Hfile : (main demo_repr demo_int demo_world demo_argv ∅).2
                      !! "out.json" = None) by (rewrite Heq; reflexivity).
    vm_compute in Hfile. discriminate. }
  split; [exact Hne|].
  exact (main_writes_after_sampling demo_repr demo_int demo_world demo_argv ∅ Hne).
Defined.

Lemma main_success_file_witness :
  let run := main demo_repr demo_int demo_world demo_argv ∅ in
  run = (0, run.2) /\
  validate_sample_data run.2 (parse_output_file demo_world demo_argv) = true.
Proof.
  intros run.
  assert (Hrun : run = (0, run.2)) by (vm_compute; reflexivity).
  split; [exact Hrun|].
  exact (proj1 (main_success_file demo_repr demo_int demo_world demo_argv ∅ _
                  Hrun)).
Defined.

Lemma main_keeps_invalid_file_witness :
  first_failure demo_repr demo_int demo_world short_argv ∅ = Some Validating /\
  (main demo_repr demo_int demo_world short_argv ∅).1 = 1.
Proof.
  assert (H : first_failure demo_repr demo_int demo_world short_argv ∅
              = Some Validating) by (vm_compute; reflexivity).
  split; [exact H|].
  exact (proj1 (main_keeps_invalid_file demo_repr demo_int demo_world
                  short_argv ∅ H)).
Defined.

Lemma main_samples_witness :
  urlopen demo_world SEED_DATA_URL = Responds demo_response /\
  1 <= parse_sample_size demo_int demo_argv < Z.of_nat (length demo_records) /\
  warning_raises demo_int demo_world demo_argv = false /\
  Forall (fun v => stdout_encodes demo_world (anon_name v) = true) demo_records /\
  exists servers,
    main demo_repr demo_int demo_world demo_argv ∅
    = (0, <[parse_output_file demo_world demo_argv := JsonText (PList servers)]> ∅) /\
    length servers = Z.to_nat (parse_sample_size demo_int demo_argv).
Proof.
  assert (Hk : 1 <= parse_sample_size demo_int demo_argv
               < Z.of_nat (length demo_records)) by (vm_compute; split; congruence).
  assert (Hnames : Forall (fun v => stdout_encodes demo_world (anon_name v) = true)
                          demo_records)
    by (repeat (constructor; [vm_compute; reflexivity|]); constructor).
  split; [reflexivity|]. split; [exact Hk|]. split; [reflexivity|].
  split; [exact Hnames|].
  destruct (main_samples demo_repr demo_int demo_world demo_argv ∅
              demo_response demo_records eq_refl eq_refl eq_refl)
    as (servers & Hmain & Hlen & _).
  - repeat constructor.
  - exact Hk.
  - reflexivity.
  - reflexivity.
  - vm_compute. reflexivity.
  - exact Hnames.
  - exists servers. auto.
Defined.

Lemma main_verbatim_witness :
  urlopen complete_world SEED_DATA_URL = Responds complete_response /\
  Z.of_nat (length complete_records) <= parse_sample_size demo_int short_argv /\
  warning_raises demo_int complete_world short_argv = false /\
  main demo_repr demo_int complete_world short_argv ∅
  = (0, <["out.json" := JsonText (PList complete_records)]> ∅).
Proof.
  assert (Hk : Z.of_nat (length complete_records)
               <= parse_sample_size demo_int short_argv)
    by (vm_compute; congruence).
  split; [reflexivity|]. split; [exact Hk|]. split; [reflexivity|].
  apply (main_verbatim demo_repr demo_int complete_world short_argv ∅
           complete_response complete_records); try reflexivity; try exact Hk.
  repeat constructor.
Defined.

Lemma main_rejects_non_array_witness :
  body {| status := 200; reason := "OK"; body := JsonText (PDict object_doc) |}
  = JsonText (PDict object_doc) /\
  (main demo_repr demo_int object_world demo_argv ∅).1 = 1.
Proof.
  split; [reflexivity|].
  apply (main_rejects_non_array demo_repr demo_int object_world demo_argv ∅
           {| status := 200; reason := "OK"; body := JsonText (PDict object_doc) |}
           (PDict object_doc)); try reflexivity.
  intros items. discriminate.
Defined.

Lemma main_nonpositive_size_witness :
  parse_sample_size signed_int negative_argv < 0 /\
  main demo_repr signed_int demo_world negative_argv ∅
  = (1, <["out.json" := JsonText (PList [])]> ∅).
Proof.
  assert (Hneg : parse_sample_size signed_int negative_argv < 0)
    by (vm_compute; reflexivity).
  split; [exact Hneg|].
  apply (proj1 (main_nonpositive_size demo_repr signed_int demo_world
                  negative_argv ∅ demo_response demo_records
                  eq_refl eq_refl eq_refl)); [exact Hneg | reflexivity].
Defined.
